(** * server.js: the Stripe checkout relay

    A shallow embedding of the four Express handlers of [server.js]
    (create-checkout-session, verify-payment, handle-cancellation and the
    fallbacks) together with the fragment of JavaScript they run on:
    JSON values as [express.json()] produces them, IEEE 754 binary64
    numbers, the coercions [ToBoolean], [ToString], [ToNumber], property
    reads, template literals and [try]/[catch].

    Conventions.
    - A JavaScript number is a [spec_float] of the Standard Library at
      precision 53 and maximal exponent 1024 (binary64).
    - A JavaScript string is a [string]; each character is one code unit
      (the model covers strings whose code units are below 256).
    - A computation that can throw returns a [result]; [try]/[catch] is a
      [match] on it.
    - The payment processor is a pair of functions, one per API call the
      server makes; a handler returns its HTTP response together with the
      list of processor calls it made. *)

From Stdlib Require Import ZArith List String Ascii Bool Lia DecimalString.
From Stdlib Require Import Floats.SpecFloat.
Import ListNotations.

Local Open Scope string_scope.
Local Open Scope Z_scope.

(** ** Numbers *)

Module Number.

Definition prec : Z := 53.
Definition emax : Z := 1024.

Definition number : Type := spec_float.

Definition NaN : number := S754_nan.
Definition Infinity : number := S754_infinity false.

(** The number nearest to an integer (exact up to 2^53). *)
Definition of_Z (z : Z) : number := binary_normalize prec emax z 0 false.

(** The operators [*] and [/] on numbers. *)
Definition mul (x y : number) : number := SFmul prec emax x y.
Definition div (x y : number) : number := SFdiv prec emax x y.

(** The number nearest to [s * 10^q] for [s > 0]: what reading a decimal
    literal yields (round to nearest, ties to even). *)
Definition of_decimal_pos (s : positive) (q : Z) : number :=
  if 0 <=? q then of_Z (Zpos s * 10 ^ q)
  else
    let '(m, e, l) := SFdiv_core_binary prec emax (Zpos s) 0 (10 ^ (- q)) 0 in
    binary_round_aux prec emax false m e l.

(** [of_decimal s q] is the number a JSON or JavaScript decimal literal
    with digits [s] and decimal exponent [q] denotes, e.g. [49.99] is
    [of_decimal 4999 (-2)]. *)
Definition of_decimal (s q : Z) : number :=
  match s with
  | Z0 => S754_zero false
  | Zpos p => of_decimal_pos p q
  | Zneg p => SFopp (of_decimal_pos p q)
  end.

(** [ToBoolean] on numbers: [+0], [-0] and [NaN] are falsy. *)
Definition truthy (x : number) : bool :=
  match x with
  | S754_zero _ | S754_nan => false
  | _ => true
  end.

(** [Number.isInteger]. *)
Definition isInteger (x : number) : bool :=
  match x with
  | S754_zero _ => true
  | S754_finite _ m e =>
      if 0 <=? e then true else Z.eqb (Z.land (Zpos m) (Z.ones (- e))) 0
  | _ => false
  end.

(** [Math.round]: the integer nearest to [x], a tie going towards
    +Infinity; [NaN], the infinities and the zeros are returned as they
    are, and a result that rounds to zero keeps the sign of [x]. *)
Definition Math_round (x : number) : number :=
  match x with
  | S754_finite s m e =>
      if 0 <=? e then x
      else
        let n := if s then Zneg m else Zpos m in
        let r := (2 * n + 2 ^ (- e)) / 2 ^ (1 - e) in
        if r =? 0 then S754_zero s else of_Z r
  | _ => x
  end.

(** *** Number::toString (radix 10) *)

(** The decimal digits of a natural number. *)
Definition decimal (n : Z) : string :=
  NilEmpty.string_of_uint (N.to_uint (Z.to_N n)).

Fixpoint zeros (n : nat) : string :=
  match n with
  | O => ""
  | S n' => String "0" (zeros n')
  end.

(** For [x = m * 2^e]: the floor of [x / 10^q], the remainder and the
    denominator of that division. *)
Definition scaled_floor (m : positive) (e q : Z) : Z * Z * Z :=
  let num := Zpos m * 2 ^ Z.max e 0 * 10 ^ Z.max (- q) 0 in
  let den := 2 ^ Z.max (- e) 0 * 10 ^ Z.max q 0 in
  (num / den, num mod den, den).

(** The [d] with [10^d <= m * 2^e < 10^(d+1)]. *)
Definition floor_log10 (m : positive) (e : Z) : Z :=
  let d0 := (Z.log2 (Zpos m) + e) * 30103 / 100000 in
  let reaches d := 1 <=? fst (fst (scaled_floor m e d)) in
  if reaches (d0 + 2) then d0 + 2
  else if reaches (d0 + 1) then d0 + 1
  else if reaches d0 then d0
  else if reaches (d0 - 1) then d0 - 1
  else d0 - 2.

Definition same_number (x y : number) : bool :=
  match x, y with
  | S754_finite sx mx ex, S754_finite sy my ey =>
      Bool.eqb sx sy && Pos.eqb mx my && Z.eqb ex ey
  | S754_zero sx, S754_zero sy => Bool.eqb sx sy
  | S754_infinity sx, S754_infinity sy => Bool.eqb sx sy
  | S754_nan, S754_nan => true
  | _, _ => false
  end.

(** The [k]-digit candidate for [x = m * 2^e]: an integer [s] and an [n]
    with [s * 10^(n-k)] reading back as [x], the nearest to [x] when there
    are two, the even one when they are equally near. *)
Definition candidate (m : positive) (e d k : Z) : option (Z * Z) :=
  let x := binary_round prec emax false m e in
  let q := d - k + 1 in
  let '(s0, r, den) := scaled_floor m e q in
  let reads s := same_number (of_decimal s q) x in
  let pick s := if s =? 10 ^ k then Some (10 ^ (k - 1), q + k + 1)
                else Some (s, q + k) in
  if r =? 0 then (if reads s0 then pick s0 else None)
  else
    match reads s0, reads (s0 + 1) with
    | true, true =>
        match 2 * r ?= den with
        | Lt => pick s0
        | Gt => pick (s0 + 1)
        | Eq => if Z.even s0 then pick s0 else pick (s0 + 1)
        end
    | true, false => pick s0
    | false, true => pick (s0 + 1)
    | false, false => None
    end.

(** The least [k] (at most 17) that has a candidate, with its [s] and [n]. *)
Fixpoint shortest (fuel : nat) (m : positive) (e d k : Z) : Z * Z * Z :=
  match fuel with
  | O => (fst (fst (scaled_floor m e (d - k + 1))), k, d + 1)
  | S fuel' =>
      match candidate m e d k with
      | Some (s, n) => (s, k, n)
      | None => shortest fuel' m e d (k + 1)
      end
  end.

Definition format (s k n : Z) : string :=
  let ds := decimal s in
  let exponent :=
    String.append (if n - 1 <? 0 then "e-" else "e+") (decimal (Z.abs (n - 1))) in
  if (k <=? n) && (n <=? 21) then String.append ds (zeros (Z.to_nat (n - k)))
  else if (0 <? n) && (n <=? 21) then
    String.append (substring 0 (Z.to_nat n) ds)
      (String "." (substring (Z.to_nat n) (Z.to_nat (k - n)) ds))
  else if (-6 <? n) && (n <=? 0) then
    String.append "0." (String.append (zeros (Z.to_nat (- n))) ds)
  else if k =? 1 then String.append ds exponent
  else
    String.append (substring 0 1 ds)
      (String "." (String.append (substring 1 (Z.to_nat (k - 1)) ds) exponent)).

Definition NumberToString (x : number) : string :=
  match x with
  | S754_nan => "NaN"
  | S754_zero _ => "0"
  | S754_infinity false => "Infinity"
  | S754_infinity true => "-Infinity"
  | S754_finite sg m e =>
      let '(s, k, n) := shortest 17 m e (floor_log10 m e) 1 in
      String.append (if sg then "-" else "") (format s k n)
  end.

(** *** StringToNumber

    The grammar [StringNumericLiteral]: optional white space around an
    optionally signed decimal literal (or [Infinity]), or an unsigned
    hexadecimal, octal or binary integer; the empty string is [+0] and
    anything else is [NaN]. *)

Definition is_space (c : ascii) : bool :=
  match nat_of_ascii c with
  | 9%nat | 10%nat | 11%nat | 12%nat | 13%nat | 32%nat | 160%nat => true
  | _ => false
  end.

Fixpoint skip_spaces (l : list ascii) : list ascii :=
  match l with
  | c :: l' => if is_space c then skip_spaces l' else l
  | [] => []
  end.

Definition trim (l : list ascii) : list ascii :=
  rev (skip_spaces (rev (skip_spaces l))).

(** The value of a digit in the given radix. *)
Definition digit (radix : Z) (c : ascii) : option Z :=
  let n := Z.of_nat (nat_of_ascii c) in
  let v := if (48 <=? n) && (n <=? 57) then n - 48
           else if (97 <=? n) && (n <=? 102) then n - 87
           else if (65 <=? n) && (n <=? 70) then n - 55
           else radix in
  if v <? radix then Some v else None.

(** The longest run of digits at the head of [l]: its value, its length
    and what follows it. *)
Fixpoint digits (radix : Z) (l : list ascii) (acc : Z) (len : Z)
  : Z * Z * list ascii :=
  match l with
  | c :: l' =>
      match digit radix c with
      | Some v => digits radix l' (radix * acc + v) (len + 1)
      | None => (acc, len, l)
      end
  | [] => (acc, len, [])
  end.

Definition integer_literal (radix : Z) (l : list ascii) : number :=
  match digits radix l 0 0 with
  | (v, len, []) => if 0 <? len then of_Z v else NaN
  | _ => NaN
  end.

(** The exponent part [e], [e+] or [e-] followed by digits, up to the end
    of the literal. *)
Definition exponent_part (l : list ascii) : option Z :=
  match l with
  | [] => Some 0
  | c :: l' =>
      if (Ascii.eqb c "e" || Ascii.eqb c "E")%bool then
        let '(neg, l'') :=
          match l' with
          | "-"%char :: r => (true, r)
          | "+"%char :: r => (false, r)
          | _ => (false, l')
          end in
        match digits 10 l'' 0 0 with
        | (v, len, []) => if 0 <? len then Some (if neg then - v else v) else None
        | _ => None
        end
      else None
  end.

(** The number nearest to [m * 10^q]; beyond the range of binary64 the
    result is fixed without computing the power. *)
Definition scale (m q : Z) : number :=
  if m =? 0 then S754_zero false
  else if 400 <? q then Infinity
  else if q + Z.log2 m <? - 400 then S754_zero false
  else of_decimal m q.

Definition unsigned_decimal_literal (l : list ascii) : number :=
  if list_eq_dec ascii_dec l (list_ascii_of_string "Infinity") then Infinity
  else
    let '(ip, ilen, r1) := digits 10 l 0 0 in
    let '(fp, flen, r2) :=
      match r1 with
      | "."%char :: r => digits 10 r ip 0
      | _ => (ip, 0, r1)
      end in
    if ilen + flen =? 0 then NaN
    else
      match exponent_part r2 with
      | Some ex => scale fp (ex - flen)
      | None => NaN
      end.

Definition StringToNumber (str : string) : number :=
  match trim (list_ascii_of_string str) with
  | [] => S754_zero false
  | "0"%char :: c :: l =>
      if (Ascii.eqb c "x" || Ascii.eqb c "X")%bool then integer_literal 16 l
      else if (Ascii.eqb c "o" || Ascii.eqb c "O")%bool then integer_literal 8 l
      else if (Ascii.eqb c "b" || Ascii.eqb c "B")%bool then integer_literal 2 l
      else unsigned_decimal_literal ("0"%char :: c :: l)
  | "-"%char :: l => SFopp (unsigned_decimal_literal l)
  | "+"%char :: l => unsigned_decimal_literal l
  | l => unsigned_decimal_literal l
  end.

End Number.
Import Number.

(** ** Values, exceptions and coercions *)

Local Set Warnings "-register-all".

(** What [JSON.parse] can produce, and [undefined] for what is absent. An
    object lists its own properties, each name once. *)
Inductive value : Type :=
  | JUndefined
  | JNull
  | JBool (b : bool)
  | JNum (x : number)
  | JStr (s : string)
  | JArr (items : list value)
  | JObj (fields : list (string * value)).

(** A thrown [Error]; the handlers only read its [message]. *)
Record Error : Type := { message : string }.

Definition TypeError (msg : string) : Error := {| message := msg |}.

Inductive result (A : Type) : Type :=
  | Ok (a : A)
  | Throw (e : Error).
Arguments Ok {A} a.
Arguments Throw {A} e.

Definition bind {A B : Type} (c : result A) (k : A -> result B) : result B :=
  match c with
  | Ok a => k a
  | Throw e => Throw e
  end.

Notation "x <- c ;; k" := (bind c (fun x => k))
  (at level 61, c at next level, right associativity).

(** [ToBoolean]. *)
Definition truthy (v : value) : bool :=
  match v with
  | JUndefined | JNull => false
  | JBool b => b
  | JNum x => Number.truthy x
  | JStr s => negb (String.eqb s "")
  | JArr _ | JObj _ => true
  end.

(** [a || b]. *)
Definition logical_or (a b : value) : value := if truthy a then a else b.

(** [v === 'literal']. *)
Definition strict_equals_string (v : value) (literal : string) : bool :=
  match v with
  | JStr s => String.eqb s literal
  | _ => false
  end.

Definition isArray (v : value) : bool :=
  match v with
  | JArr _ => true
  | _ => false
  end.

(** The own property [name] of an object, [undefined] when it has none. *)
Fixpoint lookup (name : string) (fields : list (string * value)) : value :=
  match fields with
  | [] => JUndefined
  | (k, v) :: rest => if String.eqb k name then v else lookup name rest
  end.

Definition has_own (name : string) (fields : list (string * value)) : bool :=
  existsb (fun kv => String.eqb (fst kv) name) fields.

(** [v.name], for the property names the handlers read (none of them is
    defined on a built-in prototype, so only own properties and [length]
    count). Reading a property of [undefined] or [null] throws. *)
Definition Get (v : value) (name : string) : result value :=
  match v with
  | JUndefined =>
      Throw (TypeError ("Cannot read properties of undefined (reading '" ++ name ++ "')"))
  | JNull =>
      Throw (TypeError ("Cannot read properties of null (reading '" ++ name ++ "')"))
  | JObj fields => Ok (lookup name fields)
  | JArr items =>
      Ok (if String.eqb name "length" then JNum (of_Z (Z.of_nat (List.length items)))
          else JUndefined)
  | JStr s =>
      Ok (if String.eqb name "length" then JNum (of_Z (Z.of_nat (String.length s)))
          else JUndefined)
  | JBool _ | JNum _ => Ok JUndefined
  end.

(** [const { name } = req.body]. *)
Definition destructure (body : value) (name : string) : result value :=
  match body with
  | JUndefined =>
      Throw (TypeError ("Cannot destructure property '" ++ name
                        ++ "' of 'req.body' as it is undefined."))
  | JNull =>
      Throw (TypeError ("Cannot destructure property '" ++ name
                        ++ "' of 'req.body' as it is null."))
  | _ => Get body name
  end.

(** [ToString]. An array is joined with commas, [undefined] and [null]
    elements giving the empty string; a plain object is
    ["[object Object]"], unless an own [toString] property (never callable
    in a JSON value) hides the inherited method, in which case no
    primitive can be obtained. *)
Fixpoint ToString (v : value) : result string :=
  match v with
  | JUndefined => Ok "undefined"
  | JNull => Ok "null"
  | JBool true => Ok "true"
  | JBool false => Ok "false"
  | JNum x => Ok (NumberToString x)
  | JStr s => Ok s
  | JArr items =>
      let element v :=
        match v with
        | JUndefined | JNull => Ok ""
        | _ => ToString v
        end in
      let fix join (l : list value) : result string :=
        match l with
        | [] => Ok ""
        | [v] => element v
        | v :: rest =>
            s <- element v ;;
            t <- join rest ;;
            Ok (s ++ "," ++ t)
        end in
      join items
  | JObj fields =>
      if has_own "toString" fields
      then Throw (TypeError "Cannot convert object to primitive value")
      else Ok "[object Object]"
  end.

(** [ToNumber]. *)
Definition ToNumber (v : value) : result number :=
  match v with
  | JUndefined => Ok NaN
  | JNull => Ok (S754_zero false)
  | JBool true => Ok (of_Z 1)
  | JBool false => Ok (S754_zero false)
  | JNum x => Ok x
  | JStr s => Ok (StringToNumber s)
  | JArr _ | JObj _ => s <- ToString v ;; Ok (StringToNumber s)
  end.

(** A template literal: its literal chunks and substitutions in order. *)
Inductive part : Type :=
  | Lit (s : string)
  | Sub (v : value).

Fixpoint template (parts : list part) : result string :=
  match parts with
  | [] => Ok ""
  | Lit s :: rest => t <- template rest ;; Ok (s ++ t)
  | Sub v :: rest => s <- ToString v ;; t <- template rest ;; Ok (s ++ t)
  end.

(** [String.prototype.includes]. *)
Fixpoint includes (s sub : string) : bool :=
  prefix sub s ||
  match s with
  | EmptyString => false
  | String _ s' => includes s' sub
  end.

(** ** The server *)

(** What a handler reads of [req]: the parsed body and the [Origin]
    header, and for the fallback the method and the URL. *)
Record Request : Type := {
  method : string;
  url : string;
  origin : option string;
  body : value
}.

(** [res.status(status).json(json)]; [res.json] alone answers 200. *)
Record Response : Type := {
  status : Z;
  json : value
}.

(** The objects handed to [stripe.checkout.sessions.create]. *)
Record ProductData : Type := {
  name : value;
  description : option string
}.

Record PriceData : Type := {
  currency : string;
  product_data : ProductData;
  unit_amount : number
}.

Record LineItem : Type := {
  price_data : PriceData;
  quantity : value
}.

Record SessionParams : Type := {
  payment_method_types : list string;
  line_items : list LineItem;
  mode : string;
  success_url : string;
  cancel_url : string;
  client_reference_id : value;
  metadata : value
}.

(** The processor client: each call resolves to the session object or
    rejects with an error. *)
Record Stripe : Type := {
  checkout_sessions_create : SessionParams -> result value;
  checkout_sessions_retrieve : value -> result value
}.

Inductive Call : Type :=
  | sessions_create (params : SessionParams)
  | sessions_retrieve (id : value).

(** What a handler did: the response it sent and the processor calls it
    made, in order. *)
Record Outcome : Type := {
  sent : Response;
  calls : list Call
}.

Definition elements (v : value) : list value :=
  match v with
  | JArr items => items
  | _ => []
  end.

Fixpoint map_result {A B : Type} (f : A -> result B) (l : list A) : result (list B) :=
  match l with
  | [] => Ok []
  | a :: rest => b <- f a ;; bs <- map_result f rest ;; Ok (b :: bs)
  end.

(** The [catch] blocks: [res.status(500).json({ error: error.message || fallback, success: false })]. *)
Definition internal_error (e : Error) (fallback : string) : Response :=
  {| status := 500;
     json := JObj [("error", logical_or (JStr (message e)) (JStr fallback));
                   ("success", JBool false)] |}.

(** *** POST /create-checkout-session *)

(** Lines 66-76: the callback of [items.map]. *)
Definition activity_line_item (item : value) : result LineItem :=
  title <- Get item "title" ;;
  quantity_shown <- Get item "quantity" ;;
  text <- template [Lit "Quantity: "; Sub (logical_or quantity_shown (JNum (of_Z 1)))] ;;
  price <- Get item "price" ;;
  pounds <- ToNumber (logical_or price (JNum (of_Z 0))) ;;
  quantity_sold <- Get item "quantity" ;;
  Ok {| price_data :=
          {| currency := "gbp";
             product_data := {| name := logical_or title (JStr "Activity");
                                description := Some text |};
             unit_amount := Math_round (mul pounds (of_Z 100)) |};
        quantity := logical_or quantity_sold (JNum (of_Z 1)) |}.

(** Lines 83-92: the single line item of a package booking. *)
Definition package_line_item (amount : value) : result LineItem :=
  pounds <- ToNumber amount ;;
  Ok {| price_data :=
          {| currency := "gbp";
             product_data := {| name := JStr "Travel Package Booking";
                                description := None |};
             unit_amount := Math_round (mul pounds (of_Z 100)) |};
        quantity := JNum (of_Z 1) |}.

(** Lines 60-93. *)
Definition lineItems (type items amount : value) : result (list LineItem) :=
  if strict_equals_string type "activity_upgrade" && isArray items
     && (0 <? Z.of_nat (List.length (elements items)))
  then map_result activity_line_item (elements items)
  else item <- package_line_item amount ;; Ok [item].

(** Line 100. *)
Definition isLocal (origin : option string) : bool :=
  match origin with
  | Some o =>
      truthy (JStr o) && (includes o "localhost" || includes o "127.0.0.1")
  | None => false
  end.

(** Where the [try] block stands when it reaches [await]: it has already
    answered, or it is about to call the processor. *)
Inductive BeforeCreate : Type :=
  | Answered (res : Response)
  | Creating (params : SessionParams) (timestamp : number).

(** Lines 45-127, up to the call of [stripe.checkout.sessions.create];
    [now] is what [Date.now()] returns. *)
Definition before_create (now : number) (req : Request) : result BeforeCreate :=
  userId <- destructure (body req) "userId" ;;
  amount <- destructure (body req) "amount" ;;
  items <- destructure (body req) "items" ;;
  type <- destructure (body req) "type" ;;
  packageId <- destructure (body req) "packageId" ;;
  if negb (truthy userId) then
    Ok (Answered {| status := 400; json := JObj [("error", JStr "Missing userId")] |})
  else if negb (truthy amount) && negb (truthy items) then
    Ok (Answered {| status := 400;
                    json := JObj [("error", JStr "Missing payment details (amount or items)")] |})
  else
    let timestamp := now in
    lineItems <- lineItems type items amount ;;
    successUrl <- template
      [Lit "https://kenyaonabudgetsafaris.co.uk/payment-successa.html?session_id={CHECKOUT_SESSION_ID}&userId=";
       Sub userId; Lit "&timestamp="; Sub (JNum timestamp);
       Lit "&type="; Sub (logical_or type (JStr "package"))] ;;
    cancelUrl <- template
      [Lit "https://kenyaonabudgetsafaris.co.uk/payment-cancelled.html?userId=";
       Sub userId; Lit "&timestamp="; Sub (JNum timestamp)] ;;
    _ <- (if isLocal (origin req) then
            let localOrigin :=
              logical_or (match origin req with Some o => JStr o | None => JUndefined end)
                 (JStr "http://localhost:5500") in
            successUrl <- template
              [Sub localOrigin;
               Lit "/payment-success.html?session_id={CHECKOUT_SESSION_ID}&userId=";
               Sub userId; Lit "&timestamp="; Sub (JNum timestamp);
               Lit "&type="; Sub (logical_or type (JStr "package"))] ;;
            cancelUrl <- template
              [Sub localOrigin; Lit "/payment-cancelled.html?userId=";
               Sub userId; Lit "&timestamp="; Sub (JNum timestamp)] ;;
            Ok tt
          else Ok tt) ;;
    itemCount <- (if truthy items then Get items "length" else Ok (JNum (of_Z 1))) ;;
    Ok (Creating
          {| payment_method_types := ["card"];
             line_items := lineItems;
             mode := "payment";
             success_url := successUrl;
             cancel_url := cancelUrl;
             client_reference_id := userId;
             metadata := JObj [("userId", userId);
                               ("timestamp", JStr (NumberToString timestamp));
                               ("packageId", logical_or packageId (JStr ""));
                               ("type", logical_or type (JStr "package"));
                               ("itemCount", itemCount)] |}
          timestamp).

(** Lines 130-135, once the session has been created. *)
Definition after_create (session : value) (timestamp : number) : result Response :=
  id <- Get session "id" ;;
  Ok {| status := 200;
        json := JObj [("id", id); ("timestamp", JNum timestamp); ("success", JBool true)] |}.

Definition create_checkout_session (stripe : Stripe) (now : number) (req : Request)
  : Outcome :=
  match before_create now req with
  | Throw error =>
      {| sent := internal_error error "Error creating checkout session"; calls := [] |}
  | Ok (Answered res) => {| sent := res; calls := [] |}
  | Ok (Creating params timestamp) =>
      match session <- checkout_sessions_create stripe params ;;
            after_create session timestamp with
      | Ok res => {| sent := res; calls := [sessions_create params] |}
      | Throw error =>
          {| sent := internal_error error "Error creating checkout session";
             calls := [sessions_create params] |}
      end
  end.

(** *** GET /create-checkout-session *)

Definition get_create_checkout_session : Outcome :=
  {| sent := {| status := 405;
                json := JObj [("error", JStr "GET method not allowed for this endpoint. Use POST instead.");
                              ("success", JBool false)] |};
     calls := [] |}.

(** *** POST /verify-payment *)

Inductive BeforeRetrieve : Type :=
  | Refused (res : Response)
  | Retrieving (sessionId : value).

(** Lines 156-168, up to the call of [stripe.checkout.sessions.retrieve]. *)
Definition before_retrieve (req : Request) : result BeforeRetrieve :=
  sessionId <- destructure (body req) "sessionId" ;;
  if negb (truthy sessionId) then
    Ok (Refused {| status := 400;
                   json := JObj [("error", JStr "Session ID is required");
                                 ("success", JBool false)] |})
  else Ok (Retrieving sessionId).

(** Lines 169-186, once the session has been retrieved. *)
Definition after_retrieve (session : value) : result Response :=
  _ <- Get session "id" ;;
  payment_status <- Get session "payment_status" ;;
  if strict_equals_string payment_status "paid" then
    amount_total <- Get session "amount_total" ;;
    pence <- ToNumber amount_total ;;
    customer <- Get session "customer" ;;
    metadata <- Get session "metadata" ;;
    Ok {| status := 200;
          json := JObj [("paid", JBool true);
                        ("amount", JNum (div pence (of_Z 100)));
                        ("customerId", customer);
                        ("metadata", metadata);
                        ("success", JBool true)] |}
  else
    status_shown <- Get session "payment_status" ;;
    metadata <- Get session "metadata" ;;
    Ok {| status := 200;
          json := JObj [("paid", JBool false);
                        ("status", status_shown);
                        ("metadata", metadata);
                        ("success", JBool true)] |}.

Definition verify_payment (stripe : Stripe) (req : Request) : Outcome :=
  match before_retrieve req with
  | Throw error => {| sent := internal_error error "Error verifying payment"; calls := [] |}
  | Ok (Refused res) => {| sent := res; calls := [] |}
  | Ok (Retrieving sessionId) =>
      match session <- checkout_sessions_retrieve stripe sessionId ;;
            after_retrieve session with
      | Ok res => {| sent := res; calls := [sessions_retrieve sessionId] |}
      | Throw error =>
          {| sent := internal_error error "Error verifying payment";
             calls := [sessions_retrieve sessionId] |}
      end
  end.

(** *** POST /handle-cancellation *)

Definition handle_cancellation (req : Request) : Outcome :=
  match userId <- destructure (body req) "userId" ;;
        timestamp <- destructure (body req) "timestamp" ;;
        if negb (truthy userId) then
          Ok {| status := 400;
                json := JObj [("error", JStr "User ID is required");
                              ("success", JBool false)] |}
        else
          Ok {| status := 200;
                json := JObj [("success", JBool true);
                              ("message", JStr "Cancellation processed");
                              ("userId", userId);
                              ("timestamp", timestamp)] |}
  with
  | Ok res => {| sent := res; calls := [] |}
  | Throw error => {| sent := internal_error error "Error handling cancellation"; calls := [] |}
  end.

(** *** GET /health and the fallback *)

(** [iso] is what [new Date().toISOString()] returns. *)
Definition health (iso : string) : Outcome :=
  {| sent := {| status := 200;
                json := JObj [("status", JStr "healthy"); ("timestamp", JStr iso)] |};
     calls := [] |}.

Definition route_not_found (req : Request) : Outcome :=
  {| sent := {| status := 404;
                json := JObj [("error", JStr ("Route not found: " ++ method req ++ " " ++ url req));
                              ("success", JBool false)] |};
     calls := [] |}.

(** *** The application

    Express picks the first handler registered for the method and path of
    the request; [Route] names the handler it picked. The two middlewares
    registered before the routes are not part of [app]: [cors], which
    answers an OPTIONS request itself, and [express.json], which parses
    the body or refuses it. [app] is what becomes of a request they have
    passed on. *)
Inductive Route : Type :=
  | GET_health
  | POST_create_checkout_session
  | GET_create_checkout_session
  | POST_verify_payment
  | POST_handle_cancellation
  | unmatched.

(** What the clock returns to one request. *)
Record Clock : Type := {
  Date_now : number;
  toISOString : string
}.

Definition app (stripe : Stripe) (clock : Clock) (route : Route) (req : Request) : Outcome :=
  match route with
  | GET_health => health (toISOString clock)
  | POST_create_checkout_session => create_checkout_session stripe (Date_now clock) req
  | GET_create_checkout_session => get_create_checkout_session
  | POST_verify_payment => verify_payment stripe req
  | POST_handle_cancellation => handle_cancellation req
  | unmatched => route_not_found req
  end.

(** ** Vocabulary of the specification *)

(** The property [name] of a response body. *)
Definition field (name : string) (res : Response) : value :=
  match json res with
  | JObj fields => lookup name fields
  | _ => JUndefined
  end.

(** The body carries an [error] that is a string. *)
Definition has_error_string (res : Response) : Prop :=
  exists msg, field "error" res = JStr msg.

(** The uniform error envelope [{error: string, success: false}]. *)
Definition error_envelope (res : Response) : Prop :=
  has_error_string res /\ field "success" res = JBool false.

(** A POST request with the given body. *)
Definition post (path : string) (origin : option string) (body : value) : Request :=
  {| method := "POST"; url := path; origin := origin; body := body |}.

Definition with_origin (o : option string) (req : Request) : Request :=
  {| method := method req; url := url req; origin := o; body := body req |}.

(** An item of the data model: [{title, quantity, price}], each optional. *)
Record Item : Type := {
  title : option string;
  item_quantity : option number;
  price : option number
}.

Definition optional {A : Type} (name : string) (inject : A -> value) (o : option A)
  : list (string * value) :=
  match o with
  | Some a => [(name, inject a)]
  | None => []
  end.

(** The JSON object of an item. *)
Definition item_json (i : Item) : value :=
  JObj (optional "title" JStr (title i)
        ++ optional "quantity" JNum (item_quantity i)
        ++ optional "price" JNum (price i)).

Definition default {A : Type} (d : A) (o : option A) : A :=
  match o with
  | Some a => a
  | None => d
  end.

(** The values an item of the data model takes: a title that is not
    empty, a quantity that is not zero (it is an integer from 1 on), a
    price that is a number as JSON writes one (not [NaN]; zero is [0]). *)
Definition well_formed (i : Item) : bool :=
  match title i with
  | Some t => negb (String.eqb t "")
  | None => true
  end
  && match item_quantity i with
     | Some q => Number.truthy q
     | None => true
     end
  && match price i with
     | Some p => Number.truthy p || same_number p (of_Z 0)
     | None => true
     end.

(** The line item the specification asks for: [title] defaulting to
    "Activity", a description embedding the quantity, [price] defaulting
    to 0 and converted with [round(price * 100)], [quantity] defaulting
    to 1. *)
Definition expected_line_item (i : Item) : LineItem :=
  {| price_data :=
       {| currency := "gbp";
          product_data :=
            {| name := JStr (default "Activity" (title i));
               description :=
                 Some ("Quantity: " ++ NumberToString (default (of_Z 1) (item_quantity i))) |};
          unit_amount := Math_round (mul (default (of_Z 0) (price i)) (of_Z 100)) |};
     quantity := JNum (default (of_Z 1) (item_quantity i)) |}.

(** The single line item of a package booking of [amount] pounds. *)
Definition expected_package_item (amount : number) : LineItem :=
  {| price_data :=
       {| currency := "gbp";
          product_data := {| name := JStr "Travel Package Booking"; description := None |};
          unit_amount := Math_round (mul amount (of_Z 100)) |};
     quantity := JNum (of_Z 1) |}.

(** An item as the callback of [items.map] takes it: a field that is
    falsy (an empty title, a quantity or a price that is zero or [NaN])
    counts as absent. *)
Definition effective (i : Item) : Item :=
  {| title := match title i with
              | Some t => if String.eqb t "" then None else Some t
              | None => None
              end;
     item_quantity := match item_quantity i with
                      | Some q => if Number.truthy q then Some q else None
                      | None => None
                      end;
     price := match price i with
              | Some p => if Number.truthy p then Some p else None
              | None => None
              end |}.

(** A number with no fractional part: an integer, or one of [NaN],
    [Infinity] and [-Infinity]. *)
Definition no_fraction (x : number) : bool :=
  match x with
  | S754_nan | S754_infinity _ => true
  | _ => isInteger x
  end.

(** The integer a number is, when it is one. *)
Definition integer_value (x : number) : option Z :=
  match x with
  | S754_zero _ => Some 0
  | S754_finite s m e =>
      let n := if s then Zneg m else Zpos m in
      if 0 <=? e then Some (n * 2 ^ e)
      else if Z.land (Zpos m) (Z.ones (- e)) =? 0 then Some (n / 2 ^ (- e))
           else None
  | _ => None
  end.

(** The rounding rule of the specification, stated on the exact value
    [n * 2^e] of a finite number [x] and not on any way of computing it:
    [r] is the integer with [r - 1/2 <= x < r + 1/2], so a tie goes up. *)
Definition nearest_integer_ties_up (x : number) (r : Z) : Prop :=
  match x with
  | S754_zero _ => r = 0
  | S754_finite s m e =>
      let n := if s then Zneg m else Zpos m in
      (2 * r - 1) * 2 ^ Z.max (- e) 0 <= 2 * n * 2 ^ Z.max e 0
      < (2 * r + 1) * 2 ^ Z.max (- e) 0
  | _ => False
  end.

(** The package line item with a given unit amount. *)
Definition package_item_priced (pence : number) : LineItem :=
  {| price_data :=
       {| currency := "gbp";
          product_data := {| name := JStr "Travel Package Booking"; description := None |};
          unit_amount := pence |};
     quantity := JNum (of_Z 1) |}.

(** A field that is a string or absent, as the data model has [type]. *)
Definition text_or_absent (v : value) : bool :=
  match v with
  | JUndefined | JStr _ => true
  | _ => false
  end.

Definition non_empty_array (v : value) : bool :=
  match v with
  | JArr (_ :: _) => true
  | _ => false
  end.

Definition production : string := "https://kenyaonabudgetsafaris.co.uk/".

(** *** Sample data *)

(** A processor that rejects every call, and one that accepts every call. *)
Definition rejecting (reason : string) : Stripe :=
  {| checkout_sessions_create := fun _ => Throw {| message := reason |};
     checkout_sessions_retrieve := fun _ => Throw {| message := reason |} |}.

Definition resolving (session : value) : Stripe :=
  {| checkout_sessions_create := fun _ => Ok session;
     checkout_sessions_retrieve := fun _ => Ok session |}.

Definition noon : number := of_Z 1730462400000.

Definition empty_request : Request :=
  post "/create-checkout-session" None (JObj []).

Definition empty_cart_request : Request :=
  post "/create-checkout-session" None
    (JObj [("userId", JStr "u1"); ("items", JArr [])]).

(** An item whose price times 100 is not an integer in binary64:
    [10.005 * 100] is [1000.5000000000001]. *)
Definition balloon : Item :=
  {| title := Some "Balloon";
     item_quantity := None;
     price := Some (of_decimal 10005 (-3)) |}.

Definition safari : Item :=
  {| title := Some "Safari";
     item_quantity := Some (of_Z 2);
     price := Some (of_decimal 4999 (-2)) |}.

(** ** Properties *)

(** *** Reading a request *)

Lemma destructure_object (fields : list (string * value)) (name : string) :
  destructure (JObj fields) name = Ok (lookup name fields).
Proof. reflexivity. Qed.

(** A request without [userId] gets the first answer of the checkout
    handler, whatever else it carries. *)
Lemma before_create_no_userId (now : number) (req : Request) fields :
  body req = JObj fields ->
  truthy (lookup "userId" fields) = false ->
  before_create now req =
  Ok (Answered {| status := 400; json := JObj [("error", JStr "Missing userId")] |}).
Proof.
  intros Hbody Huser. unfold before_create.
  rewrite Hbody, !destructure_object. cbn [bind].
  now rewrite Huser.
Qed.

(** A request with a [userId] and nothing to pay gets the second one. *)
Lemma before_create_no_payment (now : number) (req : Request) fields :
  body req = JObj fields ->
  truthy (lookup "userId" fields) = true ->
  truthy (lookup "amount" fields) = false ->
  truthy (lookup "items" fields) = false ->
  before_create now req =
  Ok (Answered {| status := 400;
                  json := JObj [("error", JStr "Missing payment details (amount or items)")] |}).
Proof.
  intros Hbody Huser Hamount Hitems. unfold before_create.
  rewrite Hbody, !destructure_object. cbn [bind].
  now rewrite Huser, Hamount, Hitems.
Qed.

Lemma before_retrieve_no_sessionId (req : Request) fields :
  body req = JObj fields ->
  truthy (lookup "sessionId" fields) = false ->
  before_retrieve req =
  Ok (Refused {| status := 400;
                 json := JObj [("error", JStr "Session ID is required");
                               ("success", JBool false)] |}).
Proof.
  intros Hbody Hid. unfold before_retrieve.
  rewrite Hbody, destructure_object. cbn [bind].
  now rewrite Hid.
Qed.

Lemma handle_cancellation_no_userId (req : Request) fields :
  body req = JObj fields ->
  truthy (lookup "userId" fields) = false ->
  handle_cancellation req =
  {| sent := {| status := 400;
                json := JObj [("error", JStr "User ID is required");
                              ("success", JBool false)] |};
     calls := [] |}.
Proof.
  intros Hbody Huser. unfold handle_cancellation.
  rewrite Hbody, !destructure_object. cbn [bind].
  now rewrite Huser.
Qed.

(** *** Validation *)

(** C6. A request without its identifier ([userId] for checkout and
    cancellation, [sessionId] for verification) is answered 400 with an
    [error] string, whatever its other fields are, and the processor is
    not called. *)
Theorem missing_identifier_is_400
  (stripe : Stripe) (now : number) (req : Request) (fields : list (string * value))
  (Hbody : body req = JObj fields) :
  (lookup "userId" fields = JUndefined ->
   let out := create_checkout_session stripe now req in
   status (sent out) = 400 /\ has_error_string (sent out) /\ calls out = [])
  /\
  (lookup "userId" fields = JUndefined ->
   let out := handle_cancellation req in
   status (sent out) = 400 /\ has_error_string (sent out) /\ calls out = [])
  /\
  (lookup "sessionId" fields = JUndefined ->
   let out := verify_payment stripe req in
   status (sent out) = 400 /\ has_error_string (sent out) /\ calls out = []).
Proof.
  repeat split.
  all: try (unfold create_checkout_session;
            rewrite (before_create_no_userId now req fields Hbody)
              by (now rewrite H)).
  all: try (rewrite (handle_cancellation_no_userId req fields Hbody)
              by (now rewrite H)).
  all: try (unfold verify_payment;
            rewrite (before_retrieve_no_sessionId req fields Hbody)
              by (now rewrite H)).
  all: try reflexivity.
  all: eexists; reflexivity.
Qed.

Lemma missing_identifier_is_400_witness :
  let req := post "/" None (JObj [("amount", JNum (of_Z 25))]) in
  let stripe := resolving JNull in
  (status (sent (create_checkout_session stripe noon req)) = 400
   /\ has_error_string (sent (create_checkout_session stripe noon req))
   /\ calls (create_checkout_session stripe noon req) = [])
  /\ (status (sent (handle_cancellation req)) = 400
      /\ has_error_string (sent (handle_cancellation req))
      /\ calls (handle_cancellation req) = [])
  /\ (status (sent (verify_payment stripe req)) = 400
      /\ has_error_string (sent (verify_payment stripe req))
      /\ calls (verify_payment stripe req) = []).
Proof.
  pose proof (missing_identifier_is_400 (resolving JNull) noon
                (post "/" None (JObj [("amount", JNum (of_Z 25))]))
                [("amount", JNum (of_Z 25))] eq_refl) as [Hcreate [Hcancel Hverify]].
  exact (conj (Hcreate eq_refl) (conj (Hcancel eq_refl) (Hverify eq_refl))).
Defined.

(** C2, as amended. A checkout request with neither [amount] nor [items]
    is answered 400 with an [error] string, whatever its other fields
    are, and the processor is not called. *)
Theorem missing_payment_details_is_400
  (stripe : Stripe) (now : number) (req : Request) (fields : list (string * value))
  (Hbody : body req = JObj fields)
  (Hamount : lookup "amount" fields = JUndefined)
  (Hitems : lookup "items" fields = JUndefined) :
  let out := create_checkout_session stripe now req in
  status (sent out) = 400 /\ has_error_string (sent out) /\ calls out = [].
Proof.
  unfold create_checkout_session.
  destruct (truthy (lookup "userId" fields)) eqn:Huser.
  - rewrite (before_create_no_payment now req fields Hbody Huser)
      by (now rewrite ?Hamount, ?Hitems).
    repeat split. eexists; reflexivity.
  - rewrite (before_create_no_userId now req fields Hbody Huser).
    repeat split. eexists; reflexivity.
Qed.

Lemma missing_payment_details_is_400_witness :
  let req := post "/create-checkout-session" None
               (JObj [("userId", JStr "u1"); ("type", JStr "package")]) in
  let out := create_checkout_session (resolving JNull) noon req in
  status (sent out) = 400 /\ has_error_string (sent out) /\ calls out = [].
Proof.
  exact (missing_payment_details_is_400 (resolving JNull) noon
           (post "/create-checkout-session" None
              (JObj [("userId", JStr "u1"); ("type", JStr "package")]))
           [("userId", JStr "u1"); ("type", JStr "package")] eq_refl eq_refl eq_refl).
Defined.

(** C2, as stated, fails when [items] is the empty array: an array is
    truthy, so the guard [!amount && !items] lets the request through to
    the processor, and the answer is the processor's (200 if it accepts,
    500 if it rejects), never 400. *)
Lemma empty_items_is_not_400 :
  body empty_cart_request = JObj [("userId", JStr "u1"); ("items", JArr [])]
  /\ destructure (body empty_cart_request) "amount" = Ok JUndefined
  /\ destructure (body empty_cart_request) "items" = Ok (JArr [])
  /\ status (sent (create_checkout_session
                     (resolving (JObj [("id", JStr "cs_test_1")]))
                     noon empty_cart_request)) = 200
  /\ status (sent (create_checkout_session
                     (rejecting "Invalid integer: NaN")
                     noon empty_cart_request)) = 500
  /\ List.length (calls (create_checkout_session
                           (rejecting "Invalid integer: NaN")
                           noon empty_cart_request)) = 1%nat.
Proof. vm_compute. repeat split. Qed.

(** *** Cancellation *)

(** C9. A cancellation request with a [userId] is answered 200 with
    exactly [{success: true, message: "Cancellation processed", userId,
    timestamp}], the two values being those of the request ([timestamp]
    is [undefined] when the request has none); the handler calls nothing
    and keeps nothing. *)
Theorem cancellation_echoes
  (req : Request) (fields : list (string * value))
  (Hbody : body req = JObj fields)
  (Huser : truthy (lookup "userId" fields) = true) :
  handle_cancellation req =
  {| sent := {| status := 200;
                json := JObj [("success", JBool true);
                              ("message", JStr "Cancellation processed");
                              ("userId", lookup "userId" fields);
                              ("timestamp", lookup "timestamp" fields)] |};
     calls := [] |}
  /\ (lookup "timestamp" fields = JUndefined ->
      field "timestamp" (sent (handle_cancellation req)) = JUndefined).
Proof.
  assert (Hrun : handle_cancellation req =
    {| sent := {| status := 200;
                  json := JObj [("success", JBool true);
                                ("message", JStr "Cancellation processed");
                                ("userId", lookup "userId" fields);
                                ("timestamp", lookup "timestamp" fields)] |};
       calls := [] |}).
  { unfold handle_cancellation.
    rewrite Hbody, !destructure_object. cbn [bind].
    now rewrite Huser. }
  split; [exact Hrun|].
  intros Habsent. rewrite Hrun. exact Habsent.
Qed.

Lemma cancellation_echoes_witness :
  let req := post "/handle-cancellation" None (JObj [("userId", JStr "u1")]) in
  handle_cancellation req =
  {| sent := {| status := 200;
                json := JObj [("success", JBool true);
                              ("message", JStr "Cancellation processed");
                              ("userId", JStr "u1");
                              ("timestamp", JUndefined)] |};
     calls := [] |}.
Proof.
  exact (proj1 (cancellation_echoes
                  (post "/handle-cancellation" None (JObj [("userId", JStr "u1")]))
                  [("userId", JStr "u1")] eq_refl eq_refl)).
Defined.

(** *** The error envelope *)

Lemma internal_error_envelope (e : Error) (fallback : string) :
  status (internal_error e fallback) = 500
  /\ error_envelope (internal_error e fallback).
Proof.
  split; [reflexivity|]. split; [|reflexivity].
  unfold has_error_string, field, internal_error, logical_or. cbn.
  destruct (negb (message e =? ""))%string; eexists; reflexivity.
Qed.

(** C1 at the request that breaks it. The body [{}] fails the validation
    of the checkout handler, and the answer is [{error: "Missing
    userId"}] alone: it has no [success] property, unlike the 400 answers
    of the two other POST handlers. The same holds of the second
    validation failure of that handler. *)
Theorem checkout_validation_failure_has_no_success (stripe : Stripe) (clock : Clock) :
  sent (app stripe clock POST_create_checkout_session empty_request)
  = {| status := 400; json := JObj [("error", JStr "Missing userId")] |}
  /\ field "success" (sent (app stripe clock POST_create_checkout_session empty_request))
     = JUndefined
  /\ ~ error_envelope (sent (app stripe clock POST_create_checkout_session empty_request))
  /\ sent (app stripe clock POST_create_checkout_session
             (post "/create-checkout-session" None (JObj [("userId", JStr "u1")])))
     = {| status := 400;
          json := JObj [("error", JStr "Missing payment details (amount or items)")] |}.
Proof.
  repeat split.
  intros [_ Hsuccess]. discriminate Hsuccess.
Qed.

(** Splitting a hypothesis on the computations it sequences, outermost
    first. *)
Ltac split_bind H :=
  repeat match type of H with
         | context [bind ?c _] => destruct c eqn:?; cbn [bind] in H
         | context [if ?b then _ else _] => destruct b eqn:?
         end.

(** The checkout handler answers before calling the processor only to
    refuse the request, and then without [success]. *)
Lemma before_create_answered (now : number) (req : Request) (res : Response) :
  before_create now req = Ok (Answered res) ->
  status res = 400 /\ has_error_string res /\ field "success" res = JUndefined.
Proof.
  unfold before_create. intros H.
  split_bind H; try discriminate H.
  all: injection H as <-; repeat split; eexists; reflexivity.
Qed.

Lemma before_retrieve_refused (req : Request) (res : Response) :
  before_retrieve req = Ok (Refused res) ->
  status res = 400 /\ error_envelope res.
Proof.
  unfold before_retrieve. intros H.
  split_bind H; try discriminate H.
  injection H as <-. repeat split. eexists; reflexivity.
Qed.

Lemma after_create_status (session : value) (timestamp : number) (res : Response) :
  after_create session timestamp = Ok res -> status res = 200.
Proof.
  unfold after_create. intros H.
  split_bind H; try discriminate H. now injection H as <-.
Qed.

Lemma after_retrieve_status (session : value) (res : Response) :
  after_retrieve session = Ok res -> status res = 200.
Proof.
  unfold after_retrieve. intros H.
  split_bind H; try discriminate H; now injection H as <-.
Qed.

(** Every other answer that is not a 200 carries the envelope: the
    missing [success] is particular to the two validation answers of the
    checkout handler. *)
Lemma failure_envelope_elsewhere
  (stripe : Stripe) (clock : Clock) (route : Route) (req : Request) :
  let res := sent (app stripe clock route req) in
  status res <> 200 ->
  error_envelope res
  \/ (route = POST_create_checkout_session /\ status res = 400
      /\ calls (app stripe clock route req) = []).
Proof.
  intros res Hfail; subst res.
  destruct route; cbn [app] in *.
  - now contradiction Hfail.
  - unfold create_checkout_session in *.
    destruct (before_create (Date_now clock) req) as [[res|params ts]|e] eqn:Hbefore;
      cbn [sent calls] in *.
    + right. repeat split. now apply (before_create_answered _ _ _ Hbefore).
    + destruct (checkout_sessions_create stripe params) as [session|e]; cbn [bind] in *.
      * destruct (after_create session ts) as [res|e] eqn:Hafter; cbn [sent] in *.
        -- now rewrite (after_create_status _ _ _ Hafter) in Hfail.
        -- left. apply internal_error_envelope.
      * left. apply internal_error_envelope.
    + left. apply internal_error_envelope.
  - left. split; [eexists|]; reflexivity.
  - unfold verify_payment in *.
    destruct (before_retrieve req) as [[res|sessionId]|e] eqn:Hbefore;
      cbn [sent calls] in *.
    + left. now apply (before_retrieve_refused _ _ Hbefore).
    + destruct (checkout_sessions_retrieve stripe sessionId) as [session|e]; cbn [bind] in *.
      * destruct (after_retrieve session) as [res|e] eqn:Hafter; cbn [sent] in *.
        -- now rewrite (after_retrieve_status _ _ Hafter) in Hfail.
        -- left. apply internal_error_envelope.
      * left. apply internal_error_envelope.
    + left. apply internal_error_envelope.
  - unfold handle_cancellation in *.
    destruct (destructure (body req) "userId") as [userId|e]; cbn [bind sent] in *.
    + destruct (destructure (body req) "timestamp") as [timestamp|e]; cbn [bind sent] in *.
      * destruct (truthy userId); cbn [negb sent status] in *.
        -- now contradiction Hfail.
        -- left. split; [eexists|]; reflexivity.
      * left. apply internal_error_envelope.
    + left. apply internal_error_envelope.
  - left. split; [eexists|]; reflexivity.
Qed.

(** *** Processor failures *)

(** C7. When the call to the processor throws, during the creation or
    the retrieval of a session, the handler answers 500 with the
    envelope [{error: <message>, success: false}] and nothing else: the
    message is that of the exception, or the handler's own when the
    exception has none. *)
Theorem processor_exception_is_500
  (stripe : Stripe) (now : number) (req : Request) (e : Error) :
  (forall params,
      calls (create_checkout_session stripe now req) = [sessions_create params] ->
      checkout_sessions_create stripe params = Throw e ->
      sent (create_checkout_session stripe now req)
      = internal_error e "Error creating checkout session")
  /\ (forall sessionId,
         calls (verify_payment stripe req) = [sessions_retrieve sessionId] ->
         checkout_sessions_retrieve stripe sessionId = Throw e ->
         sent (verify_payment stripe req) = internal_error e "Error verifying payment")
  /\ (forall fallback,
         status (internal_error e fallback) = 500
         /\ error_envelope (internal_error e fallback)
         /\ field "error" (internal_error e fallback)
            = JStr (if String.eqb (message e) "" then fallback else message e)).
Proof.
  split; [|split; [|intros fallback; split; [|split]]].
  - intros params Hcalls Hthrow. revert Hcalls.
    unfold create_checkout_session.
    destruct (before_create now req) as [[res|params' ts]|e']; cbn [calls];
      try discriminate.
    destruct (checkout_sessions_create stripe params') as [session|e''] eqn:Hcall;
      cbn [bind].
    + destruct (after_create session ts); cbn [calls]; intros [= ->]; congruence.
    + cbn [calls sent]. intros [= ->]. congruence.
  - intros sessionId Hcalls Hthrow. revert Hcalls.
    unfold verify_payment.
    destruct (before_retrieve req) as [[res|sessionId']|e']; cbn [calls];
      try discriminate.
    destruct (checkout_sessions_retrieve stripe sessionId') as [session|e''] eqn:Hcall;
      cbn [bind].
    + destruct (after_retrieve session); cbn [calls]; intros [= ->]; congruence.
    + cbn [calls sent]. intros [= ->]. congruence.
  - reflexivity.
  - apply internal_error_envelope.
  - unfold field, internal_error, logical_or. cbn.
    now destruct (message e =? "")%string.
Qed.

Lemma processor_exception_is_500_witness :
  sent (create_checkout_session (rejecting "No such customer") noon
          (post "/create-checkout-session" None
             (JObj [("userId", JStr "u1"); ("amount", JNum (of_Z 25))])))
  = {| status := 500;
       json := JObj [("error", JStr "No such customer"); ("success", JBool false)] |}
  /\ sent (verify_payment (rejecting "No such checkout.session: cs_0")
             (post "/verify-payment" None (JObj [("sessionId", JStr "cs_0")])))
     = {| status := 500;
          json := JObj [("error", JStr "No such checkout.session: cs_0");
                        ("success", JBool false)] |}.
Proof.
  split.
  - exact (proj1 (processor_exception_is_500 (rejecting "No such customer") noon
                    (post "/create-checkout-session" None
                       (JObj [("userId", JStr "u1"); ("amount", JNum (of_Z 25))]))
                    {| message := "No such customer" |})
             _ eq_refl eq_refl).
  - exact (proj1 (proj2 (processor_exception_is_500
                           (rejecting "No such checkout.session: cs_0") noon
                           (post "/verify-payment" None (JObj [("sessionId", JStr "cs_0")]))
                           {| message := "No such checkout.session: cs_0" |}))
             _ eq_refl eq_refl).
Defined.

(** *** Verification *)

Lemma strict_equals_string_spec (v : value) (literal : string) :
  strict_equals_string v literal = true <-> v = JStr literal.
Proof.
  destruct v; cbn; try (split; [discriminate|discriminate]).
  rewrite String.eqb_eq. split; [now intros ->|now intros [= ->]].
Qed.

(** C5. Once the session of the request's [sessionId] has been
    retrieved: if its [payment_status] is ["paid"], the answer is
    [{paid: true, amount: amount_total / 100, customerId, metadata,
    success: true}]; otherwise it is [{paid: false, status:
    payment_status, metadata, success: true}]. A paid session of 5000
    pence yields [paid: true] and [amount: 50]. *)
Theorem verify_payment_reports
  (stripe : Stripe) (req : Request) (fields session : list (string * value))
  (Hbody : body req = JObj fields)
  (Hid : truthy (lookup "sessionId" fields) = true)
  (Hretrieve : checkout_sessions_retrieve stripe (lookup "sessionId" fields)
               = Ok (JObj session)) :
  (lookup "payment_status" session = JStr "paid" ->
   forall pence, ToNumber (lookup "amount_total" session) = Ok pence ->
   sent (verify_payment stripe req)
   = {| status := 200;
        json := JObj [("paid", JBool true);
                      ("amount", JNum (div pence (of_Z 100)));
                      ("customerId", lookup "customer" session);
                      ("metadata", lookup "metadata" session);
                      ("success", JBool true)] |})
  /\ (lookup "payment_status" session <> JStr "paid" ->
      sent (verify_payment stripe req)
      = {| status := 200;
           json := JObj [("paid", JBool false);
                         ("status", lookup "payment_status" session);
                         ("metadata", lookup "metadata" session);
                         ("success", JBool true)] |})
  /\ div (of_Z 5000) (of_Z 100) = of_Z 50.
Proof.
  assert (Hbefore : before_retrieve req = Ok (Retrieving (lookup "sessionId" fields))).
  { unfold before_retrieve. rewrite Hbody, destructure_object. cbn [bind].
    now rewrite Hid. }
  repeat split.
  - intros Hpaid pence Hpence.
    unfold verify_payment. rewrite Hbefore, Hretrieve. cbn [bind].
    unfold after_retrieve. cbn [Get bind]. rewrite Hpaid. cbn [strict_equals_string].
    rewrite String.eqb_refl, Hpence. reflexivity.
  - intros Hunpaid.
    unfold verify_payment. rewrite Hbefore, Hretrieve. cbn [bind].
    unfold after_retrieve. cbn [Get bind].
    destruct (strict_equals_string (lookup "payment_status" session) "paid") eqn:Heq.
    + now apply strict_equals_string_spec in Heq.
    + reflexivity.
Qed.

Lemma verify_payment_reports_witness :
  sent (verify_payment
          (resolving (JObj [("id", JStr "cs_1"); ("payment_status", JStr "paid");
                            ("amount_total", JNum (of_Z 5000));
                            ("customer", JStr "cus_1"); ("metadata", JObj [])]))
          (post "/verify-payment" None (JObj [("sessionId", JStr "cs_1")])))
  = {| status := 200;
       json := JObj [("paid", JBool true);
                     ("amount", JNum (of_Z 50));
                     ("customerId", JStr "cus_1");
                     ("metadata", JObj []);
                     ("success", JBool true)] |}
  /\ sent (verify_payment
             (resolving (JObj [("id", JStr "cs_2"); ("payment_status", JStr "unpaid");
                               ("metadata", JObj [])]))
             (post "/verify-payment" None (JObj [("sessionId", JStr "cs_2")])))
     = {| status := 200;
          json := JObj [("paid", JBool false);
                        ("status", JStr "unpaid");
                        ("metadata", JObj []);
                        ("success", JBool true)] |}.
Proof.
  split.
  - exact (proj1 (verify_payment_reports
                    (resolving (JObj [("id", JStr "cs_1"); ("payment_status", JStr "paid");
                                      ("amount_total", JNum (of_Z 5000));
                                      ("customer", JStr "cus_1"); ("metadata", JObj [])]))
                    (post "/verify-payment" None (JObj [("sessionId", JStr "cs_1")]))
                    [("sessionId", JStr "cs_1")] _ eq_refl eq_refl eq_refl)
             eq_refl (of_Z 5000) eq_refl).
  - refine (proj1 (proj2 (verify_payment_reports
                    (resolving (JObj [("id", JStr "cs_2"); ("payment_status", JStr "unpaid");
                                      ("metadata", JObj [])]))
                    (post "/verify-payment" None (JObj [("sessionId", JStr "cs_2")]))
                    [("sessionId", JStr "cs_2")] _ eq_refl eq_refl eq_refl)) _).
    discriminate.
Defined.

(** *** The session handed to the processor *)

(** A truthy value has properties to read. *)
Lemma Get_truthy (v : value) (name : string) :
  truthy v = true -> exists w, Get v name = Ok w.
Proof.
  destruct v; cbn; try discriminate; intros _; eexists; reflexivity.
Qed.

(** The two URLs, as the template literals of lines 96-97 spell them. *)
Lemma urls_of_templates (userId type : value) (timestamp : number) (u t : string) :
  ToString userId = Ok u ->
  ToString (logical_or type (JStr "package")) = Ok t ->
  template
    [Lit "https://kenyaonabudgetsafaris.co.uk/payment-successa.html?session_id={CHECKOUT_SESSION_ID}&userId=";
     Sub userId; Lit "&timestamp="; Sub (JNum timestamp);
     Lit "&type="; Sub (logical_or type (JStr "package"))]
  = Ok ("https://kenyaonabudgetsafaris.co.uk/payment-successa.html?session_id={CHECKOUT_SESSION_ID}&userId="
        ++ u ++ "&timestamp=" ++ NumberToString timestamp ++ "&type=" ++ t ++ "")
  /\ template
       [Lit "https://kenyaonabudgetsafaris.co.uk/payment-cancelled.html?userId=";
        Sub userId; Lit "&timestamp="; Sub (JNum timestamp)]
     = Ok ("https://kenyaonabudgetsafaris.co.uk/payment-cancelled.html?userId="
           ++ u ++ "&timestamp=" ++ NumberToString timestamp ++ "").
Proof.
  intros Hu Ht. cbn [template]. rewrite Hu, Ht. cbn [bind ToString]. now split.
Qed.

(** The block of lines 101-106 declares its own [successUrl] and
    [cancelUrl]; it yields nothing, and it cannot throw where the
    templates of lines 96-97 did not. *)
Lemma local_block_is_void (o : option string) (userId type : value)
  (timestamp : number) (u t : string) :
  ToString userId = Ok u ->
  ToString (logical_or type (JStr "package")) = Ok t ->
  (if isLocal o then
     let localOrigin :=
       logical_or (match o with Some o => JStr o | None => JUndefined end)
          (JStr "http://localhost:5500") in
     successUrl <- template
       [Sub localOrigin;
        Lit "/payment-success.html?session_id={CHECKOUT_SESSION_ID}&userId=";
        Sub userId; Lit "&timestamp="; Sub (JNum timestamp);
        Lit "&type="; Sub (logical_or type (JStr "package"))] ;;
     cancelUrl <- template
       [Sub localOrigin; Lit "/payment-cancelled.html?userId=";
        Sub userId; Lit "&timestamp="; Sub (JNum timestamp)] ;;
     Ok tt
   else Ok tt) = Ok tt.
Proof.
  intros Hu Ht.
  destruct o as [o|]; cbn [isLocal]; [|reflexivity].
  destruct (truthy (JStr o)) eqn:Ho; cbn [andb]; [|reflexivity].
  destruct (includes o "localhost" || includes o "127.0.0.1"); [|reflexivity].
  cbv zeta. unfold logical_or at 1 3. rewrite Ho.
  cbn [template]. rewrite Hu, Ht. reflexivity.
Qed.

(** What the checkout handler is about to send when it reaches the
    processor: the request passed both checks, the line items are those of
    [lineItems], and the URLs are the production ones. *)
Lemma before_create_creating
  (now : number) (req : Request) (fields : list (string * value))
  (params : SessionParams) (timestamp : number) :
  body req = JObj fields ->
  before_create now req = Ok (Creating params timestamp) ->
  timestamp = now
  /\ truthy (lookup "userId" fields) = true
  /\ (truthy (lookup "amount" fields) || truthy (lookup "items" fields)) = true
  /\ lineItems (lookup "type" fields) (lookup "items" fields) (lookup "amount" fields)
     = Ok (line_items params)
  /\ exists u t,
       ToString (lookup "userId" fields) = Ok u
       /\ ToString (logical_or (lookup "type" fields) (JStr "package")) = Ok t
       /\ success_url params
          = "https://kenyaonabudgetsafaris.co.uk/payment-successa.html?session_id={CHECKOUT_SESSION_ID}&userId="
            ++ u ++ "&timestamp=" ++ NumberToString now ++ "&type=" ++ t ++ ""
       /\ cancel_url params
          = "https://kenyaonabudgetsafaris.co.uk/payment-cancelled.html?userId="
            ++ u ++ "&timestamp=" ++ NumberToString now ++ "".
Proof.
  intros Hbody. unfold before_create.
  rewrite Hbody, !destructure_object. cbn [bind].
  destruct (truthy (lookup "userId" fields)) eqn:Huser; cbn [negb]; [|discriminate].
  destruct (truthy (lookup "amount" fields)) eqn:Hamount;
    destruct (truthy (lookup "items" fields)) eqn:Hitems;
    cbn [negb andb orb]; try discriminate.
  all: destruct (lineItems _ _ _) as [items|e]; cbn [bind]; [|discriminate].
  all: destruct (ToString (lookup "userId" fields)) as [u|e] eqn:Hu;
    [|cbn [template bind]; rewrite Hu; discriminate].
  all: destruct (ToString (logical_or (lookup "type" fields) (JStr "package"))) as [t|e] eqn:Ht;
    [|cbn [template bind ToString]; rewrite Hu, Ht; discriminate].
  all: destruct (urls_of_templates _ _ now u t Hu Ht) as [-> ->]; cbn [bind].
  all: pose proof (local_block_is_void (origin req) _ _ now u t Hu Ht) as Hblock;
    cbv zeta in Hblock; rewrite Hblock; clear Hblock; cbn [bind].
  all: try (destruct (Get_truthy (lookup "items" fields) "length" Hitems) as [n ->]).
  all: cbn [bind]; intros [= <- <-]; cbn [line_items success_url cancel_url].
  all: repeat split; exists u, t; repeat split.
Qed.

(** Only a body that is an object gets as far as the processor. *)
Lemma before_create_creating_object
  (now : number) (req : Request) (params : SessionParams) (timestamp : number) :
  before_create now req = Ok (Creating params timestamp) ->
  exists fields, body req = JObj fields.
Proof.
  unfold before_create.
  destruct (body req) as [| |b|x|s|items|fields]; cbn; try discriminate.
  intros _. now exists fields.
Qed.

(** A call to the processor is the one [before_create] prepared. *)
Lemma create_checkout_session_called
  (stripe : Stripe) (now : number) (req : Request) (params : SessionParams) :
  In (sessions_create params) (calls (create_checkout_session stripe now req)) ->
  exists timestamp, before_create now req = Ok (Creating params timestamp).
Proof.
  unfold create_checkout_session.
  destruct (before_create now req) as [[res|params' ts]|e]; cbn [calls In];
    try contradiction.
  destruct (_ <- checkout_sessions_create stripe params' ;; _); cbn [calls In];
    intros [[= ->]|[]]; now exists ts.
Qed.

Lemma create_checkout_session_calls
  (stripe : Stripe) (now : number) (req : Request)
  (params : SessionParams) (timestamp : number) :
  before_create now req = Ok (Creating params timestamp) ->
  calls (create_checkout_session stripe now req) = [sessions_create params]
  /\ status (sent (create_checkout_session stripe now req)) <> 400.
Proof.
  intros Hbefore. unfold create_checkout_session. rewrite Hbefore.
  destruct (checkout_sessions_create stripe params) as [session|e]; cbn [bind].
  - destruct (after_create session timestamp) as [res|e] eqn:Hafter; cbn [calls sent].
    + split; [reflexivity|]. now rewrite (after_create_status _ _ _ Hafter).
    + split; [reflexivity|discriminate].
  - split; [reflexivity|discriminate].
Qed.

(** A request that passes both checks, whose line items can be built and
    whose [userId] and [type] can be written into a URL, reaches the
    processor. *)
Lemma before_create_creates
  (now : number) (req : Request) (fields : list (string * value))
  (items : list LineItem) (u t : string) :
  body req = JObj fields ->
  truthy (lookup "userId" fields) = true ->
  (truthy (lookup "amount" fields) || truthy (lookup "items" fields)) = true ->
  lineItems (lookup "type" fields) (lookup "items" fields) (lookup "amount" fields)
  = Ok items ->
  ToString (lookup "userId" fields) = Ok u ->
  ToString (logical_or (lookup "type" fields) (JStr "package")) = Ok t ->
  exists params,
    before_create now req = Ok (Creating params now) /\ line_items params = items.
Proof.
  intros Hbody Huser Hpay Hitems Hu Ht. unfold before_create.
  rewrite Hbody, !destructure_object. cbn [bind].
  rewrite Huser. cbn [negb].
  replace (negb (truthy (lookup "amount" fields)) && negb (truthy (lookup "items" fields)))
    with false by (now rewrite <- negb_orb, Hpay).
  rewrite Hitems. cbn [bind].
  destruct (urls_of_templates _ _ now u t Hu Ht) as [-> ->]. cbn [bind].
  pose proof (local_block_is_void (origin req) _ _ now u t Hu Ht) as Hblock.
  cbv zeta in Hblock. rewrite Hblock. clear Hblock. cbn [bind].
  destruct (truthy (lookup "items" fields)) eqn:Hlist.
  - destruct (Get_truthy (lookup "items" fields) "length" Hlist) as [n ->].
    cbn [bind]. eexists. split; reflexivity.
  - cbn [bind]. eexists. split; reflexivity.
Qed.

Lemma ToString_type (v : value) :
  text_or_absent v = true -> exists t, ToString (logical_or v (JStr "package")) = Ok t.
Proof.
  destruct v; cbn; try discriminate; intros _.
  - now exists "package".
  - unfold logical_or. destruct (truthy (JStr s)); eexists; reflexivity.
Qed.

(** *** Rounding *)

Lemma iter_xO_value (p k : positive) : Zpos (Pos.iter xO p k) = Zpos p * 2 ^ Zpos k.
Proof.
  induction k as [|k IH] using Pos.peano_ind.
  - cbn [Pos.iter]. lia.
  - rewrite Pos.iter_succ, Pos2Z.inj_xO, IH, Pos2Z.inj_succ, Z.pow_succ_r by lia. lia.
Qed.

Lemma iter_xO_digits (p k : positive) :
  digits2_pos (Pos.iter xO p k) = (digits2_pos p + k)%positive.
Proof.
  induction k as [|k IH] using Pos.peano_ind.
  - cbn [Pos.iter digits2_pos]. lia.
  - rewrite Pos.iter_succ. cbn [digits2_pos]. rewrite IH. lia.
Qed.

Lemma digits2_pos_bounds (p : positive) :
  2 ^ (Zpos (digits2_pos p) - 1) <= Zpos p < 2 ^ Zpos (digits2_pos p).
Proof.
  induction p as [p IH|p IH|]; cbn [digits2_pos].
  - rewrite Pos2Z.inj_succ, Pos2Z.inj_xI.
    replace (Z.succ (Zpos (digits2_pos p)) - 1) with (Z.succ (Zpos (digits2_pos p) - 1)) by lia.
    rewrite !Z.pow_succ_r by lia.
    revert IH. generalize (2 ^ (Zpos (digits2_pos p) - 1)) (2 ^ Zpos (digits2_pos p)).
    intros a b [H1 H2]. split; lia.
  - rewrite Pos2Z.inj_succ. change (Zpos p~0) with (2 * Zpos p).
    replace (Z.succ (Zpos (digits2_pos p)) - 1) with (Z.succ (Zpos (digits2_pos p) - 1)) by lia.
    rewrite !Z.pow_succ_r by lia.
    revert IH. generalize (2 ^ (Zpos (digits2_pos p) - 1)) (2 ^ Zpos (digits2_pos p)).
    intros a b [H1 H2]. split; lia.
  - cbn. lia.
Qed.

Lemma Zdigits2_bound (m : Z) : 0 <= m -> m < 2 ^ Zdigits2 m.
Proof.
  destruct m as [|p|p]; cbn [Zdigits2]; [cbn; lia| |lia].
  intros _. apply digits2_pos_bounds.
Qed.

Lemma shr_1_m (mrs : shr_record) :
  0 <= shr_m mrs -> shr_m (shr_1 mrs) = shr_m mrs / 2 /\ 0 <= shr_m (shr_1 mrs).
Proof.
  destruct mrs as [m r s]. cbn [shr_m]. intros Hm.
  rewrite <- Z.div2_div.
  destruct m as [|[p|p|]|p]; cbn; try lia.
Qed.

Lemma iter_shr_1_m (p : positive) (mrs : shr_record) :
  0 <= shr_m mrs ->
  shr_m (iter_pos shr_1 p mrs) = shr_m mrs / 2 ^ Zpos p
  /\ 0 <= shr_m (iter_pos shr_1 p mrs).
Proof.
  revert mrs. induction p as [p IH|p IH|]; intros mrs Hm; cbn [iter_pos].
  - destruct (shr_1_m mrs Hm) as [H1 H1'].
    destruct (IH _ H1') as [H2 H2']. destruct (IH _ H2') as [H3 H3'].
    split; [|exact H3'].
    rewrite H3, H2, H1, !Z.div_div by lia.
    f_equal. rewrite Pos2Z.inj_xI. 
    replace (2 * Zpos p + 1) with (1 + Zpos p + Zpos p) by lia.
    rewrite !Z.pow_add_r by lia. lia.
  - destruct (IH _ Hm) as [H2 H2']. destruct (IH _ H2') as [H3 H3'].
    split; [|exact H3'].
    rewrite H3, H2, !Z.div_div by lia.
    f_equal. change (Zpos p~0) with (2 * Zpos p).
    replace (2 * Zpos p) with (Zpos p + Zpos p) by lia.
    rewrite !Z.pow_add_r by lia. lia.
  - destruct (shr_1_m mrs Hm) as [H1 H1']. split; [|exact H1'].
    rewrite H1. reflexivity.
Qed.

Lemma shr_record_of_loc_m (m : Z) (l : location) : shr_m (shr_record_of_loc m l) = m.
Proof. destruct l as [|[]]; reflexivity. Qed.

Lemma shr_fexp_bounded (m e : Z) (l : location) :
  0 <= m -> 0 <= shr_m (fst (shr_fexp prec emax m e l)) < 2 ^ 53.
Proof.
  intros Hm. unfold shr_fexp, shr.
  pose proof (Zdigits2_bound m Hm) as Hd.
  assert (Hdnn : 0 <= Zdigits2 m) by (destruct m; cbn; lia).
  destruct (fexp prec emax (Zdigits2 m + e) - e) as [|p|p] eqn:Hshift; cbn [fst].
  - rewrite shr_record_of_loc_m. split; [exact Hm|].
    assert (Zdigits2 m <= 53) by (unfold fexp, emin, prec, emax in Hshift; lia).
    apply Z.lt_le_trans with (1 := Hd). apply Z.pow_le_mono_r; lia.
  - destruct (iter_shr_1_m p (shr_record_of_loc m l)) as [Heq Hnn];
      [rewrite shr_record_of_loc_m; exact Hm|].
    split; [exact Hnn|]. rewrite Heq, shr_record_of_loc_m.
    assert (Hp : Zdigits2 m - 53 <= Zpos p)
      by (unfold fexp, emin, prec, emax in Hshift; lia).
    apply Z.div_lt_upper_bound; [lia|].
    rewrite <- Z.pow_add_r by lia.
    apply Z.lt_le_trans with (1 := Hd). apply Z.pow_le_mono_r; lia.
  - rewrite shr_record_of_loc_m. split; [exact Hm|].
    assert (Zdigits2 m <= 53) by (unfold fexp, emin, prec, emax in Hshift; lia).
    apply Z.lt_le_trans with (1 := Hd). apply Z.pow_le_mono_r; lia.
Qed.

Lemma binary_round_aux_bounded (s s' : bool) (mx ex : Z) (lx : location)
  (m : positive) (e : Z) :
  0 <= mx ->
  binary_round_aux prec emax s mx ex lx = S754_finite s' m e -> Zpos m < 2 ^ 53.
Proof.
  intros Hmx. unfold binary_round_aux.
  pose proof (shr_fexp_bounded mx ex lx Hmx) as H1.
  destruct (shr_fexp prec emax mx ex lx) as [mrs' e']. cbn [fst] in H1.
  assert (H1' : 0 <= round_nearest_even (shr_m mrs') (loc_of_shr_record mrs')).
  { unfold round_nearest_even.
    destruct (loc_of_shr_record mrs') as [|[]]; try destruct (Z.even _); lia. }
  pose proof (shr_fexp_bounded _ e' loc_Exact H1') as H2.
  destruct (shr_fexp prec emax _ e' loc_Exact) as [mrs'' e'']. cbn [fst] in H2.
  destruct (shr_m mrs'') as [|m''|m'']; try discriminate.
  destruct (e'' <=? emax - prec); [|discriminate].
  intros [= _ <- _]. lia.
Qed.

Lemma mul_bounded (x y : number) (s : bool) (m : positive) (e : Z) :
  mul x y = S754_finite s m e -> Zpos m < 2 ^ 53.
Proof.
  unfold mul, SFmul.
  destruct x as [sx|sx| |sx mx ex], y as [sy|sy| |sy my ey]; try discriminate.
  apply binary_round_aux_bounded. lia.
Qed.

Lemma binary_round_exact (s : bool) (p : positive) :
  Zpos p < 2 ^ 53 ->
  integer_value (binary_round prec emax s p 0) = Some (if s then Zneg p else Zpos p).
Proof.
  intros Hp.
  assert (Hd : Zpos (digits2_pos p) <= 53).
  { destruct (Z.le_gt_cases (Zpos (digits2_pos p)) 53) as [H|H]; [exact H|].
    pose proof (digits2_pos_bounds p) as [Hlow _].
    assert (2 ^ 53 <= 2 ^ (Zpos (digits2_pos p) - 1)) by (apply Z.pow_le_mono_r; lia).
    lia. }
  unfold binary_round, shl_align.
  destruct (fexp prec emax (Zpos (digits2_pos p) + 0) - 0) as [|k|k] eqn:Hshift.
  - unfold binary_round_aux, shr_fexp. cbn [Zdigits2].
    rewrite Hshift.
    cbn [shr shr_record_of_loc loc_of_shr_record shr_m round_nearest_even Zdigits2].
    rewrite Hshift.
    cbn [shr shr_m].
    replace (0 <=? emax - prec) with true by reflexivity.
    cbn [integer_value]. replace (0 <=? 0) with true by reflexivity.
    f_equal. destruct s; lia.
  - unfold fexp, emin, prec, emax in Hshift. lia.
  - assert (Hk : Zpos (digits2_pos p) + Zpos k = 53).
    { unfold fexp, emin, prec, emax in Hshift. lia. }
    assert (Hfexp : fexp prec emax (Zpos (digits2_pos p) + 0) = Zneg k) by lia.
    rewrite Hfexp.
    unfold binary_round_aux, shr_fexp.
    cbn [Zdigits2]. rewrite iter_xO_digits.
    replace (fexp prec emax (Zpos (digits2_pos p + k) + Zneg k) - Zneg k) with 0
      by (unfold fexp, emin, prec, emax; lia).
    cbn [shr shr_record_of_loc loc_of_shr_record shr_m round_nearest_even Zdigits2].
    rewrite iter_xO_digits.
    replace (fexp prec emax (Zpos (digits2_pos p + k) + Zneg k) - Zneg k) with 0
      by (unfold fexp, emin, prec, emax; lia).
    cbn [shr shr_m].
    replace (Zneg k <=? emax - prec) with true
      by (symmetry; apply Z.leb_le; unfold prec, emax; lia).
    cbn [integer_value].
    replace (0 <=? Zneg k) with false by (symmetry; apply Z.leb_gt; lia).
    cbn [Z.opp].
    assert (Hvalue : Zpos (Pos.iter xO p k) = Zpos p * 2 ^ Zpos k) by apply iter_xO_value.
    rewrite Hvalue, Z.land_ones, Z.mod_mul by lia.
    cbn [Z.eqb]. f_equal.
    destruct s.
    + change (Zneg (Pos.iter xO p k)) with (- Zpos (Pos.iter xO p k)).
      rewrite Hvalue, <- Z.mul_opp_l, Z.div_mul by lia. reflexivity.
    + rewrite Z.div_mul by lia. reflexivity.
Qed.

Lemma of_Z_exact (r : Z) : Z.abs r < 2 ^ 53 -> integer_value (of_Z r) = Some r.
Proof.
  intros Hr. unfold of_Z, binary_normalize.
  destruct r as [|p|p]; [reflexivity| |].
  - apply (binary_round_exact false). lia.
  - apply (binary_round_exact true). lia.
Qed.

(** [Math.round] yields the integer [r] with [r - 1/2 <= x < r + 1/2]. *)
Lemma Math_round_half_up (s : bool) (m : positive) (e r : Z) :
  Zpos m < 2 ^ 53 ->
  nearest_integer_ties_up (S754_finite s m e) r ->
  integer_value (Math_round (S754_finite s m e)) = Some r.
Proof.
  intros Hm. cbn [nearest_integer_ties_up Math_round].
  set (n := if s then Zneg m else Zpos m).
  assert (Hn : - 2 ^ 53 < n < 2 ^ 53) by (subst n; destruct s; lia).
  destruct (Z.leb_spec 0 e) as [He|He].
  - rewrite (Z.max_r (- e) 0), (Z.max_l e 0) by lia. rewrite Z.pow_0_r.
    intros Hr. cbn [integer_value].
    replace (0 <=? e) with true by (symmetry; apply Z.leb_le; lia).
    fold n. f_equal. revert Hr. generalize (2 ^ e). intros d Hr. nia.
  - rewrite (Z.max_l (- e) 0), (Z.max_r e 0) by lia. rewrite Z.pow_0_r.
    assert (Hk : 2 <= 2 ^ (- e)).
    { change 2 with (2 ^ 1) at 1. apply Z.pow_le_mono_r; lia. }
    replace (2 ^ (1 - e)) with (2 * 2 ^ (- e))
      by (replace (1 - e) with (Z.succ (- e)) by lia; now rewrite Z.pow_succ_r by lia).
    revert Hk. generalize (2 ^ (- e)). intros d Hd Hr.
    assert (Hdiv : (2 * n + d) / (2 * d) = r).
    { symmetry. apply (Z.div_unique _ _ r (2 * n + d - 2 * d * r)); nia. }
    rewrite Hdiv.
    destruct (Z.eqb_spec r 0) as [->|Hr0]; [reflexivity|].
    apply of_Z_exact. 
    assert (- 2 ^ 53 < r < 2 ^ 53); [|lia].
    revert Hn. generalize (2 ^ 53). intros B Hn. nia.
Qed.

Lemma round_of_product (p : number) (r : Z) :
  nearest_integer_ties_up (mul p (of_Z 100)) r ->
  integer_value (Math_round (mul p (of_Z 100))) = Some r.
Proof.
  destruct (mul p (of_Z 100)) as [s|s| |s m e] eqn:Hproduct;
    cbn [nearest_integer_ties_up]; try contradiction.
  - now intros ->.
  - intros Hr. apply Math_round_half_up; [|exact Hr].
    now apply (mul_bounded p (of_Z 100) s m e).
Qed.

(** *** Line items *)

(** The test of line 62. *)
Lemma activity_branch (type items : value) :
  strict_equals_string type "activity_upgrade" && isArray items
  && (0 <? Z.of_nat (List.length (elements items)))
  = strict_equals_string type "activity_upgrade" && non_empty_array items.
Proof.
  destruct (strict_equals_string type "activity_upgrade"); [|reflexivity].
  destruct items as [| | | | |[|item rest]|]; reflexivity.
Qed.

Lemma truthy_text (u : string) : u <> "" -> truthy (JStr u) = true.
Proof.
  intros Hu. cbn. destruct (String.eqb_spec u ""); [contradiction|reflexivity].
Qed.

(** C4. A request that is accepted, carries the number [amount] and does
    not take the activity branch (its [type] is not ["activity_upgrade"],
    or its [items] are not a non-empty array) reaches the processor with
    exactly one line item: "Travel Package Booking", quantity 1, and as
    unit price the integer nearest to the binary64 product [amount * 100],
    a tie going up. For [amount = 120.5] the unit price is 12050; the
    products of 10.005, 1.005 and 0.125 are not integers and give 1001,
    100 and 13. *)
Theorem package_booking_line_item
  (stripe : Stripe) (now : number) (req : Request) (fields : list (string * value))
  (u : string) (a : number)
  (Hbody : body req = JObj fields)
  (Huser : lookup "userId" fields = JStr u)
  (Hu : u <> "")
  (Htype : text_or_absent (lookup "type" fields) = true)
  (Hamount : lookup "amount" fields = JNum a)
  (Haccepted : (Number.truthy a || truthy (lookup "items" fields)) = true)
  (Hbranch : lookup "type" fields <> JStr "activity_upgrade"
             \/ non_empty_array (lookup "items" fields) = false) :
  (exists params,
      calls (create_checkout_session stripe now req) = [sessions_create params]
      /\ line_items params = [expected_package_item a]
      /\ (forall r,
             nearest_integer_ties_up (mul a (of_Z 100)) r ->
             map (fun line => integer_value (unit_amount (price_data line)))
                 (line_items params)
             = [Some r]))
  /\ package_line_item (JNum (of_decimal 1205 (-1)))
     = Ok {| price_data :=
               {| currency := "gbp";
                  product_data := {| name := JStr "Travel Package Booking";
                                     description := None |};
                  unit_amount := of_Z 12050 |};
             quantity := JNum (of_Z 1) |}
  /\ package_line_item (JNum (of_decimal 10005 (-3))) = Ok (package_item_priced (of_Z 1001))
  /\ package_line_item (JNum (of_decimal 1005 (-3))) = Ok (package_item_priced (of_Z 100))
  /\ package_line_item (JNum (of_decimal 125 (-3))) = Ok (package_item_priced (of_Z 13)).
Proof.
  split; [|repeat split; reflexivity].
  destruct (ToString_type _ Htype) as [t Ht].
  destruct (before_create_creates now req fields [expected_package_item a] u t)
    as [params [Hbefore Hitems]]; trivial.
  - rewrite Huser. now apply truthy_text.
  - now rewrite Hamount.
  - unfold lineItems. rewrite activity_branch.
    replace (strict_equals_string (lookup "type" fields) "activity_upgrade"
             && non_empty_array (lookup "items" fields)) with false.
    + now rewrite Hamount.
    + destruct Hbranch as [Hother | ->]; [|now rewrite andb_false_r].
      destruct (strict_equals_string _ _) eqn:Heq; [|reflexivity].
      now apply strict_equals_string_spec in Heq.
  - now rewrite Huser.
  - exists params. split; [|split; [exact Hitems|]].
    + now apply create_checkout_session_calls with (timestamp := now).
    + intros r Hr. rewrite Hitems. cbn [map expected_package_item price_data unit_amount].
      now rewrite (round_of_product a r Hr).
Qed.

Lemma package_booking_line_item_witness :
  (exists params,
      calls (create_checkout_session (resolving (JObj [("id", JStr "cs_test_1")])) noon
               (post "/create-checkout-session" None
                  (JObj [("userId", JStr "u1"); ("amount", JNum (of_decimal 1205 (-1)))])))
      = [sessions_create params]
      /\ line_items params = [package_item_priced (of_Z 12050)])
  /\ (exists params,
         calls (create_checkout_session (resolving (JObj [("id", JStr "cs_test_2")])) noon
                  (post "/create-checkout-session" None
                     (JObj [("userId", JStr "u1"); ("amount", JNum (of_decimal 10005 (-3)))])))
         = [sessions_create params]
         /\ line_items params = [package_item_priced (of_Z 1001)]
         /\ map (fun line => integer_value (unit_amount (price_data line)))
                (line_items params)
            = [Some 1001]).
Proof.
  assert (Hu : "u1" <> "") by discriminate.
  split.
  - destruct (proj1 (package_booking_line_item
                       (resolving (JObj [("id", JStr "cs_test_1")])) noon
                       (post "/create-checkout-session" None
                          (JObj [("userId", JStr "u1");
                                 ("amount", JNum (of_decimal 1205 (-1)))]))
                       [("userId", JStr "u1"); ("amount", JNum (of_decimal 1205 (-1)))]
                       "u1" (of_decimal 1205 (-1)) eq_refl eq_refl
                       Hu
                       eq_refl eq_refl eq_refl (or_intror eq_refl)))
      as (params & Hcalls & Hlines & _).
    exists params. split; [exact Hcalls|]. rewrite Hlines. vm_compute. reflexivity.
  - destruct (proj1 (package_booking_line_item
                       (resolving (JObj [("id", JStr "cs_test_2")])) noon
                       (post "/create-checkout-session" None
                          (JObj [("userId", JStr "u1");
                                 ("amount", JNum (of_decimal 10005 (-3)))]))
                       [("userId", JStr "u1"); ("amount", JNum (of_decimal 10005 (-3)))]
                       "u1" (of_decimal 10005 (-3)) eq_refl eq_refl
                       Hu
                       eq_refl eq_refl eq_refl (or_intror eq_refl)))
      as (params & Hcalls & Hlines & Hround).
    exists params. split; [exact Hcalls|]. split.
    + rewrite Hlines. vm_compute. reflexivity.
    + apply Hround. vm_compute. split; [discriminate|reflexivity].
Defined.

(** C10. A request with a [userId], a non-empty [items] array, no
    [amount] and a [type] other than ["activity_upgrade"] is not refused:
    it reaches the processor with the single package line item, whose
    unit price is [Math.round(undefined * 100)], that is [NaN], which is
    not an integer. *)
Theorem items_without_amount_price_is_NaN
  (stripe : Stripe) (now : number) (req : Request) (fields : list (string * value))
  (u : string) (item : value) (rest : list value)
  (Hbody : body req = JObj fields)
  (Huser : lookup "userId" fields = JStr u)
  (Hu : u <> "")
  (Htype : text_or_absent (lookup "type" fields) = true)
  (Hother : lookup "type" fields <> JStr "activity_upgrade")
  (Hamount : lookup "amount" fields = JUndefined)
  (Hitems : lookup "items" fields = JArr (item :: rest)) :
  status (sent (create_checkout_session stripe now req)) <> 400
  /\ (exists params,
         calls (create_checkout_session stripe now req) = [sessions_create params]
         /\ line_items params = [expected_package_item NaN])
  /\ package_line_item JUndefined = Ok (expected_package_item NaN)
  /\ unit_amount (price_data (expected_package_item NaN)) = NaN
  /\ isInteger NaN = false.
Proof.
  destruct (ToString_type _ Htype) as [t Ht].
  destruct (before_create_creates now req fields [expected_package_item NaN] u t)
    as [params [Hbefore Hlines]]; trivial.
  - rewrite Huser. now apply truthy_text.
  - now rewrite Hitems, orb_true_r.
  - unfold lineItems. rewrite activity_branch.
    replace (strict_equals_string (lookup "type" fields) "activity_upgrade") with false.
    + now rewrite Hamount.
    + destruct (strict_equals_string _ _) eqn:Heq; [|reflexivity].
      now apply strict_equals_string_spec in Heq.
  - now rewrite Huser.
  - destruct (create_checkout_session_calls stripe now req params now Hbefore)
      as [Hcalls Hstatus].
    split; [exact Hstatus|]. split; [now exists params|]. repeat split.
Qed.

Lemma items_without_amount_price_is_NaN_witness :
  exists params,
    calls (create_checkout_session (rejecting "Invalid integer: NaN") noon
             (post "/create-checkout-session" None
                (JObj [("userId", JStr "u1");
                       ("items", JArr [item_json safari]);
                       ("type", JStr "package")])))
    = [sessions_create params]
    /\ line_items params = [expected_package_item NaN].
Proof.
  refine (proj1 (proj2 (items_without_amount_price_is_NaN
                   (rejecting "Invalid integer: NaN") noon
                   (post "/create-checkout-session" None
                      (JObj [("userId", JStr "u1");
                             ("items", JArr [item_json safari]);
                             ("type", JStr "package")]))
                   [("userId", JStr "u1");
                    ("items", JArr [item_json safari]);
                    ("type", JStr "package")]
                   "u1" (item_json safari) [] eq_refl eq_refl _ eq_refl _ eq_refl eq_refl)));
    discriminate.
Defined.

Lemma append_empty (s : string) : s ++ "" = s.
Proof. induction s as [|c s IH]; cbn; [reflexivity|now rewrite IH]. Qed.

Lemma same_number_zero (p : number) : same_number p (of_Z 0) = true -> p = of_Z 0.
Proof. destruct p as [[|]| | |]; cbn; try discriminate; reflexivity. Qed.

(** The callback of [items.map] on an item of the data model. *)
Lemma activity_line_item_expected (i : Item) :
  well_formed i = true ->
  activity_line_item (item_json i) = Ok (expected_line_item i).
Proof.
  destruct i as [t q p]. unfold well_formed, item_json, expected_line_item.
  cbn [title item_quantity price].
  intros Hwf. apply andb_prop in Hwf as [Hwf Hp]. apply andb_prop in Hwf as [Ht Hq].
  assert (Hname : logical_or (lookup "title" (optional "title" JStr t
                                      ++ optional "quantity" JNum q
                                      ++ optional "price" JNum p)) (JStr "Activity")
                  = JStr (default "Activity" t)).
  { destruct t as [t|], q, p; cbn; unfold logical_or; cbn; try rewrite Ht; reflexivity. }
  assert (Hquantity : logical_or (lookup "quantity" (optional "title" JStr t
                                             ++ optional "quantity" JNum q
                                             ++ optional "price" JNum p)) (JNum (of_Z 1))
                      = JNum (default (of_Z 1) q)).
  { destruct t, q as [q|], p; cbn; unfold logical_or; cbn; try rewrite Hq; reflexivity. }
  assert (Hprice : logical_or (lookup "price" (optional "title" JStr t
                                       ++ optional "quantity" JNum q
                                       ++ optional "price" JNum p)) (JNum (of_Z 0))
                   = JNum (default (of_Z 0) p)).
  { destruct t, q, p as [p|]; cbn; unfold logical_or; cbn; try reflexivity.
    all: destruct (Number.truthy p) eqn:Htruthy; try reflexivity.
    all: cbn in Hp; now rewrite (same_number_zero p Hp). }
  unfold activity_line_item. cbn [Get bind].
  rewrite Hname, Hquantity, Hprice.
  cbn [template ToString ToNumber bind]. now rewrite append_empty.
Qed.

Lemma map_activity_line_item (items : list Item) :
  forallb well_formed items = true ->
  map_result activity_line_item (map item_json items) = Ok (map expected_line_item items).
Proof.
  induction items as [|i items IH]; cbn [forallb map map_result]; [reflexivity|].
  intros Hwf. apply andb_prop in Hwf as [Hi Hitems].
  now rewrite (activity_line_item_expected i Hi), (IH Hitems).
Qed.

Lemma Forall2_map {A B : Type} (P : A -> B -> Prop) (f : A -> B) (l : list A) :
  (forall a, P a (f a)) -> Forall2 P l (map f l).
Proof.
  intros Hf. induction l as [|a l IH]; cbn [map]; constructor; [apply Hf|exact IH].
Qed.

(** C3. A request of [type] ["activity_upgrade"] with a non-empty
    [items] array reaches the processor with one line item per item, in
    order: the title (or "Activity"), a description showing the quantity,
    the quantity (or 1) and as unit price the integer nearest to the
    binary64 product [price * 100], a tie going up. The item
    [{title: "Safari", quantity: 2, price: 49.99}] gives the unit price
    4999 and the quantity 2; the products of 10.005, 1.005 and 0.125 are
    not integers and give 1001, 100 and 13. *)
Theorem activity_upgrade_line_items
  (stripe : Stripe) (now : number) (req : Request) (fields : list (string * value))
  (u : string) (item : Item) (rest : list Item)
  (Hbody : body req = JObj fields)
  (Huser : lookup "userId" fields = JStr u)
  (Hu : u <> "")
  (Htype : lookup "type" fields = JStr "activity_upgrade")
  (Hitems : lookup "items" fields = JArr (map item_json (item :: rest)))
  (Hwf : forallb well_formed (item :: rest) = true) :
  (exists params,
      calls (create_checkout_session stripe now req) = [sessions_create params]
      /\ line_items params = map expected_line_item (item :: rest)
      /\ List.length (line_items params) = List.length (item :: rest)
      /\ Forall2 (fun i line =>
                    forall r,
                      nearest_integer_ties_up
                        (mul (default (of_Z 0) (price i)) (of_Z 100)) r ->
                      integer_value (unit_amount (price_data line)) = Some r)
                 (item :: rest) (line_items params))
  /\ activity_line_item
       (JObj [("title", JStr "Safari");
              ("quantity", JNum (of_Z 2));
              ("price", JNum (of_decimal 4999 (-2)))])
     = Ok {| price_data :=
               {| currency := "gbp";
                  product_data := {| name := JStr "Safari";
                                     description := Some "Quantity: 2" |};
                  unit_amount := of_Z 4999 |};
             quantity := JNum (of_Z 2) |}
  /\ map (fun pounds =>
            line <- activity_line_item (JObj [("price", JNum pounds)]) ;;
            Ok (unit_amount (price_data line)))
         [of_decimal 10005 (-3); of_decimal 1005 (-3); of_decimal 125 (-3)]
     = [Ok (of_Z 1001); Ok (of_Z 100); Ok (of_Z 13)].
Proof.
  split; [|split; reflexivity].
  destruct (before_create_creates now req fields
              (map expected_line_item (item :: rest)) u "activity_upgrade")
    as [params [Hbefore Hlines]]; trivial.
  - rewrite Huser. now apply truthy_text.
  - now rewrite Hitems, orb_true_r.
  - unfold lineItems. rewrite activity_branch, Htype, Hitems.
    cbn [strict_equals_string non_empty_array map andb elements].
    rewrite String.eqb_refl.
    exact (map_activity_line_item (item :: rest) Hwf).
  - now rewrite Huser.
  - now rewrite Htype.
  - exists params. split; [|split; [|split]].
    + now apply create_checkout_session_calls with (timestamp := now).
    + exact Hlines.
    + rewrite Hlines. apply length_map.
    + rewrite Hlines. apply Forall2_map.
      intros i r Hr. cbn [expected_line_item price_data unit_amount].
      exact (round_of_product _ r Hr).
Qed.

Lemma activity_upgrade_line_items_witness :
  exists params,
    calls (create_checkout_session (resolving (JObj [("id", JStr "cs_test_1")])) noon
             (post "/create-checkout-session" None
                (JObj [("userId", JStr "u1");
                       ("type", JStr "activity_upgrade");
                       ("items", JArr [JObj [("title", JStr "Safari");
                                             ("quantity", JNum (of_Z 2));
                                             ("price", JNum (of_decimal 4999 (-2)))];
                                       JObj [("title", JStr "Balloon");
                                             ("price", JNum (of_decimal 10005 (-3)))]])])))
    = [sessions_create params]
    /\ line_items params
       = [{| price_data :=
               {| currency := "gbp";
                  product_data := {| name := JStr "Safari";
                                     description := Some "Quantity: 2" |};
                  unit_amount := of_Z 4999 |};
             quantity := JNum (of_Z 2) |};
          {| price_data :=
               {| currency := "gbp";
                  product_data := {| name := JStr "Balloon";
                                     description := Some "Quantity: 1" |};
                  unit_amount := of_Z 1001 |};
             quantity := JNum (of_Z 1) |}]
    /\ List.length (line_items params) = 2%nat.
Proof.
  assert (Hu : "u1" <> "") by discriminate.
  destruct (proj1 (activity_upgrade_line_items
                     (resolving (JObj [("id", JStr "cs_test_1")])) noon
                     (post "/create-checkout-session" None
                        (JObj [("userId", JStr "u1");
                               ("type", JStr "activity_upgrade");
                               ("items", JArr [item_json safari; item_json balloon])]))
                     [("userId", JStr "u1");
                      ("type", JStr "activity_upgrade");
                      ("items", JArr [item_json safari; item_json balloon])]
                     "u1" safari [balloon] eq_refl eq_refl Hu eq_refl eq_refl eq_refl))
    as (params & Hcalls & Hlines & Hlength & _).
  exists params. split; [exact Hcalls|]. split; [|exact Hlength].
  rewrite Hlines. vm_compute. reflexivity.
Defined.

(** *** Redirect URLs *)

(** The [Origin] header is read by line 100 and by the block it guards,
    and by nothing that reaches the processor or the response. *)
Lemma before_create_ignores_origin (now : number) (req : Request) (o : option string) :
  before_create now (with_origin o req) = before_create now req.
Proof.
  unfold before_create. cbn [body origin with_origin].
  destruct (destructure (body req) "userId") as [userId|e]; cbn [bind]; [|reflexivity].
  destruct (destructure (body req) "amount") as [amount|e]; cbn [bind]; [|reflexivity].
  destruct (destructure (body req) "items") as [items|e]; cbn [bind]; [|reflexivity].
  destruct (destructure (body req) "type") as [type|e]; cbn [bind]; [|reflexivity].
  destruct (destructure (body req) "packageId") as [packageId|e]; cbn [bind];
    [|reflexivity].
  destruct (negb (truthy userId)); [reflexivity|].
  destruct (negb (truthy amount) && negb (truthy items)); [reflexivity|].
  destruct (lineItems type items amount) as [lines|e]; cbn [bind]; [|reflexivity].
  destruct (ToString userId) as [u|e] eqn:Hu;
    [|cbn [template bind]; rewrite Hu; reflexivity].
  destruct (ToString (logical_or type (JStr "package"))) as [t|e] eqn:Ht;
    [|cbn [template bind ToString]; rewrite Hu, Ht; reflexivity].
  destruct (urls_of_templates userId type now u t Hu Ht) as [-> ->]. cbn [bind].
  pose proof (local_block_is_void o userId type now u t Hu Ht) as Hnew.
  pose proof (local_block_is_void (origin req) userId type now u t Hu Ht) as Hold.
  cbv zeta in Hnew, Hold. now rewrite Hnew, Hold.
Qed.

(** C8. The URLs handed to the processor are those of the production
    site whatever the [Origin] header is: replacing the header changes
    neither the calls made nor the answer, and both URLs of any call
    start with the production domain. *)
Theorem redirect_urls_ignore_origin
  (stripe : Stripe) (now : number) (req : Request) (o : option string) :
  create_checkout_session stripe now (with_origin o req)
  = create_checkout_session stripe now req
  /\ forall params,
       In (sessions_create params) (calls (create_checkout_session stripe now req)) ->
       prefix production (success_url params) = true
       /\ prefix production (cancel_url params) = true.
Proof.
  split.
  - unfold create_checkout_session. now rewrite before_create_ignores_origin.
  - intros params Hcall.
    apply create_checkout_session_called in Hcall as [timestamp Hbefore].
    destruct (before_create_creating_object _ _ _ _ Hbefore) as [fields Hbody].
    destruct (before_create_creating now req fields params timestamp Hbody Hbefore)
      as (_ & _ & _ & _ & u & t & _ & _ & -> & ->).
    split; reflexivity.
Qed.

Lemma redirect_urls_ignore_origin_witness :
  exists params,
    In (sessions_create params)
       (calls (create_checkout_session (resolving (JObj [("id", JStr "cs_test_1")])) noon
                 (post "/create-checkout-session" (Some "http://localhost:5500")
                    (JObj [("userId", JStr "u1"); ("amount", JNum (of_Z 25))]))))
    /\ success_url params
       = "https://kenyaonabudgetsafaris.co.uk/payment-successa.html?session_id={CHECKOUT_SESSION_ID}&userId=u1&timestamp=1730462400000&type=package"
    /\ cancel_url params
       = "https://kenyaonabudgetsafaris.co.uk/payment-cancelled.html?userId=u1&timestamp=1730462400000"
    /\ prefix production (success_url params) = true
    /\ prefix production (cancel_url params) = true.
Proof.
  eexists. split; [left; reflexivity|]. split; [reflexivity|]. split; [reflexivity|].
  refine (proj2 (redirect_urls_ignore_origin
                   (resolving (JObj [("id", JStr "cs_test_1")])) noon
                   (post "/create-checkout-session" (Some "http://localhost:5500")
                      (JObj [("userId", JStr "u1"); ("amount", JNum (of_Z 25))]))
                   None) _ _).
  left. reflexivity.
Defined.

(** ** Further properties of the handlers *)

(** *** What reaches the processor *)

(** The session parameters of lines 113-127, field by field. *)
Lemma before_create_params
  (now : number) (req : Request) (fields : list (string * value))
  (params : SessionParams) (timestamp : number) :
  body req = JObj fields ->
  before_create now req = Ok (Creating params timestamp) ->
  exists lines u t count,
    lineItems (lookup "type" fields) (lookup "items" fields) (lookup "amount" fields)
    = Ok lines
    /\ ToString (lookup "userId" fields) = Ok u
    /\ ToString (logical_or (lookup "type" fields) (JStr "package")) = Ok t
    /\ (if truthy (lookup "items" fields) then Get (lookup "items" fields) "length"
        else Ok (JNum (of_Z 1))) = Ok count
    /\ timestamp = now
    /\ params =
       {| payment_method_types := ["card"];
          line_items := lines;
          mode := "payment";
          success_url :=
            "https://kenyaonabudgetsafaris.co.uk/payment-successa.html?session_id={CHECKOUT_SESSION_ID}&userId="
            ++ u ++ "&timestamp=" ++ NumberToString now ++ "&type=" ++ t ++ "";
          cancel_url :=
            "https://kenyaonabudgetsafaris.co.uk/payment-cancelled.html?userId="
            ++ u ++ "&timestamp=" ++ NumberToString now ++ "";
          client_reference_id := lookup "userId" fields;
          metadata :=
            JObj [("userId", lookup "userId" fields);
                  ("timestamp", JStr (NumberToString now));
                  ("packageId", logical_or (lookup "packageId" fields) (JStr ""));
                  ("type", logical_or (lookup "type" fields) (JStr "package"));
                  ("itemCount", count)] |}.
Proof.
  intros Hbody. unfold before_create.
  rewrite Hbody, !destructure_object. cbn [bind].
  destruct (truthy (lookup "userId" fields)); cbn [negb]; [|discriminate].
  destruct (negb (truthy (lookup "amount" fields)) && negb (truthy (lookup "items" fields)));
    [discriminate|].
  destruct (lineItems _ _ _) as [lines|e]; cbn [bind]; [|discriminate].
  destruct (ToString (lookup "userId" fields)) as [u|e] eqn:Hu;
    [|cbn [template bind]; rewrite Hu; discriminate].
  destruct (ToString (logical_or (lookup "type" fields) (JStr "package"))) as [t|e] eqn:Ht;
    [|cbn [template bind ToString]; rewrite Hu, Ht; discriminate].
  destruct (urls_of_templates _ _ now u t Hu Ht) as [-> ->]. cbn [bind].
  pose proof (local_block_is_void (origin req) _ _ now u t Hu Ht) as Hblock.
  cbv zeta in Hblock. rewrite Hblock. clear Hblock. cbn [bind].
  destruct (if truthy (lookup "items" fields) then _ else _) as [count|e];
    cbn [bind]; [|discriminate].
  intros [= <- <-]. exists lines, u, t, count. repeat split.
Qed.

(** X1. A request makes at most one call to the processor: none, or one
    session creation from the checkout handler, or one session retrieval
    from the verification handler. *)
Theorem at_most_one_processor_call
  (stripe : Stripe) (clock : Clock) (route : Route) (req : Request) :
  calls (app stripe clock route req) = []
  \/ (exists params,
         route = POST_create_checkout_session
         /\ calls (app stripe clock route req) = [sessions_create params])
  \/ (exists sessionId,
         route = POST_verify_payment
         /\ calls (app stripe clock route req) = [sessions_retrieve sessionId]).
Proof.
  destruct route; cbn [app]; try (left; reflexivity).
  - unfold create_checkout_session.
    destruct (before_create (Date_now clock) req) as [[res|params ts]|e];
      try (left; reflexivity).
    right; left. exists params. split; [reflexivity|].
    now destruct (_ <- checkout_sessions_create stripe params ;; _).
  - unfold verify_payment.
    destruct (before_retrieve req) as [[res|sessionId]|e]; try (left; reflexivity).
    right; right. exists sessionId. split; [reflexivity|].
    now destruct (_ <- checkout_sessions_retrieve stripe sessionId ;; _).
  - unfold handle_cancellation.
    now destruct (_ <- destructure (body req) "userId" ;; _); left.
Qed.

(** *** Which requests are refused *)

Lemma before_create_accepts
  (now : number) (req : Request) (fields : list (string * value)) (res : Response) :
  body req = JObj fields ->
  truthy (lookup "userId" fields) = true ->
  (truthy (lookup "amount" fields) || truthy (lookup "items" fields)) = true ->
  before_create now req <> Ok (Answered res).
Proof.
  intros Hbody Huser Hpay. unfold before_create.
  rewrite Hbody, !destructure_object. cbn [bind].
  rewrite Huser. cbn [negb].
  replace (negb (truthy (lookup "amount" fields)) && negb (truthy (lookup "items" fields)))
    with false by (now rewrite <- negb_orb, Hpay).
  intros H. split_bind H; discriminate H.
Qed.

Lemma create_checkout_session_400
  (stripe : Stripe) (now : number) (req : Request) :
  status (sent (create_checkout_session stripe now req)) = 400 ->
  exists res, before_create now req = Ok (Answered res).
Proof.
  unfold create_checkout_session.
  destruct (before_create now req) as [[res|params ts]|e] eqn:Hbefore; cbn [sent].
  - intros _. now exists res.
  - intros H400.
    destruct (create_checkout_session_calls stripe now req params ts Hbefore) as [_ Hnot].
    unfold create_checkout_session in Hnot. rewrite Hbefore in Hnot. contradiction.
  - discriminate.
Qed.

(** X2. The checkout handler answers 400 exactly when [userId] is falsy
    (absent, [null], [false], [0] or the empty string) or both [amount]
    and [items] are; the test of [userId] comes first, so a request that
    fails both is told "Missing userId"; and a 400 is sent without any
    call to the processor. *)
Theorem checkout_refused_iff
  (stripe : Stripe) (now : number) (req : Request) (fields : list (string * value))
  (Hbody : body req = JObj fields) :
  (status (sent (create_checkout_session stripe now req)) = 400
   <-> truthy (lookup "userId" fields) = false
       \/ (truthy (lookup "amount" fields) = false
           /\ truthy (lookup "items" fields) = false))
  /\ (truthy (lookup "userId" fields) = false ->
      sent (create_checkout_session stripe now req)
      = {| status := 400; json := JObj [("error", JStr "Missing userId")] |})
  /\ (status (sent (create_checkout_session stripe now req)) = 400 ->
      calls (create_checkout_session stripe now req) = []).
Proof.
  split; [split|split].
  - intros H400. apply create_checkout_session_400 in H400 as [res Hbefore].
    destruct (truthy (lookup "userId" fields)) eqn:Huser; [|now left].
    right.
    destruct (truthy (lookup "amount" fields)) eqn:Hamount;
      destruct (truthy (lookup "items" fields)) eqn:Hitems; try (now split).
    all: exfalso; apply (before_create_accepts now req fields res Hbody Huser);
      [now rewrite Hamount, Hitems|exact Hbefore].
  - unfold create_checkout_session.
    destruct (truthy (lookup "userId" fields)) eqn:Huser.
    + intros [Habs|[Hamount Hitems]]; [discriminate|].
      now rewrite (before_create_no_payment now req fields Hbody Huser Hamount Hitems).
    + intros _. now rewrite (before_create_no_userId now req fields Hbody Huser).
  - intros Huser. unfold create_checkout_session.
    now rewrite (before_create_no_userId now req fields Hbody Huser).
  - intros H400. apply create_checkout_session_400 in H400 as [res Hbefore].
    unfold create_checkout_session. now rewrite Hbefore.
Qed.

Lemma checkout_refused_iff_witness :
  sent (create_checkout_session (resolving JNull) noon
          (post "/create-checkout-session" None
             (JObj [("userId", JStr ""); ("packageId", JStr "p1")])))
  = {| status := 400; json := JObj [("error", JStr "Missing userId")] |}.
Proof.
  exact (proj1 (proj2 (checkout_refused_iff (resolving JNull) noon
                         (post "/create-checkout-session" None
                            (JObj [("userId", JStr ""); ("packageId", JStr "p1")]))
                         [("userId", JStr ""); ("packageId", JStr "p1")] eq_refl))
           eq_refl).
Defined.

(** X3. On a body that is an object, the verification handler answers
    400 exactly when [sessionId] is falsy, and the cancellation handler
    exactly when [userId] is; the cancellation handler then answers 200
    or 400 and nothing else. *)
Theorem verify_and_cancel_refused_iff
  (stripe : Stripe) (req : Request) (fields : list (string * value))
  (Hbody : body req = JObj fields) :
  (status (sent (verify_payment stripe req)) = 400
   <-> truthy (lookup "sessionId" fields) = false)
  /\ (status (sent (handle_cancellation req)) = 400
      <-> truthy (lookup "userId" fields) = false)
  /\ (status (sent (handle_cancellation req)) = 200
      <-> truthy (lookup "userId" fields) = true).
Proof.
  split; [|split].
  - unfold verify_payment, before_retrieve.
    rewrite Hbody, destructure_object. cbn [bind].
    destruct (truthy (lookup "sessionId" fields)); cbn [negb].
    + split; [|discriminate].
      destruct (checkout_sessions_retrieve stripe _) as [session|e]; cbn [bind sent].
      * destruct (after_retrieve session) as [res|e] eqn:Hafter; cbn [sent].
        -- now rewrite (after_retrieve_status _ _ Hafter).
        -- discriminate.
      * discriminate.
    + now split.
  - unfold handle_cancellation. rewrite Hbody, !destructure_object. cbn [bind].
    destruct (truthy (lookup "userId" fields)); cbn [negb sent status]; now split.
  - unfold handle_cancellation. rewrite Hbody, !destructure_object. cbn [bind].
    destruct (truthy (lookup "userId" fields)); cbn [negb sent status]; now split.
Qed.

Lemma verify_and_cancel_refused_iff_witness :
  status (sent (verify_payment (resolving JNull)
                  (post "/verify-payment" None (JObj [("sessionId", JNum (of_Z 0))]))))
  = 400.
Proof.
  exact (proj2 (proj1 (verify_and_cancel_refused_iff (resolving JNull)
                         (post "/verify-payment" None (JObj [("sessionId", JNum (of_Z 0))]))
                         [("sessionId", JNum (of_Z 0))] eq_refl))
           eq_refl).
Defined.

(** X4. A body that is [null] or [undefined] cannot be destructured: the
    three POST handlers answer 500 with the error envelope and call
    nothing. A body that is an array, a string, a number or a boolean has
    none of the identifiers, and the three handlers answer 400. *)
Theorem body_that_is_no_object
  (stripe : Stripe) (now : number) (req : Request) :
  (body req = JNull \/ body req = JUndefined ->
   (status (sent (create_checkout_session stripe now req)) = 500
    /\ error_envelope (sent (create_checkout_session stripe now req))
    /\ calls (create_checkout_session stripe now req) = [])
   /\ (status (sent (verify_payment stripe req)) = 500
       /\ error_envelope (sent (verify_payment stripe req))
       /\ calls (verify_payment stripe req) = [])
   /\ (status (sent (handle_cancellation req)) = 500
       /\ error_envelope (sent (handle_cancellation req))
       /\ calls (handle_cancellation req) = []))
  /\ ((exists items, body req = JArr items) \/ (exists s, body req = JStr s)
      \/ (exists x, body req = JNum x) \/ (exists b, body req = JBool b) ->
      (status (sent (create_checkout_session stripe now req)) = 400
       /\ calls (create_checkout_session stripe now req) = [])
      /\ (status (sent (verify_payment stripe req)) = 400
          /\ calls (verify_payment stripe req) = [])
      /\ (status (sent (handle_cancellation req)) = 400
          /\ calls (handle_cancellation req) = [])).
Proof.
  split.
  - intros [Hbody|Hbody];
      unfold create_checkout_session, verify_payment, handle_cancellation,
        before_create, before_retrieve;
      rewrite Hbody; cbn [destructure bind sent calls];
      repeat split; try apply internal_error_envelope.
  - intros [[items Hbody]|[[s Hbody]|[[x Hbody]|[b Hbody]]]];
      unfold create_checkout_session, verify_payment, handle_cancellation,
        before_create, before_retrieve;
      rewrite Hbody; cbn; repeat split.
Qed.

Lemma body_that_is_no_object_witness :
  status (sent (handle_cancellation (post "/handle-cancellation" None JNull))) = 500
  /\ status (sent (handle_cancellation
                     (post "/handle-cancellation" None (JArr [JStr "u1"])))) = 400.
Proof.
  split.
  - exact (proj1 (proj2 (proj2 (proj1 (body_that_is_no_object (resolving JNull) noon
                                         (post "/handle-cancellation" None JNull))
                                  (or_introl eq_refl))))).
  - exact (proj1 (proj2 (proj2 (proj2 (body_that_is_no_object (resolving JNull) noon
                                         (post "/handle-cancellation" None (JArr [JStr "u1"])))
                                  (or_introl (ex_intro _ [JStr "u1"] eq_refl)))))).
Defined.

(** *** The session that is created *)

Lemma map_result_length {A B : Type} (f : A -> result B) (l : list A) (bs : list B) :
  map_result f l = Ok bs -> List.length bs = List.length l.
Proof.
  revert bs. induction l as [|a l IH]; cbn [map_result]; intros bs.
  - now intros [= <-].
  - destruct (f a) as [b|e]; cbn [bind]; [|discriminate].
    destruct (map_result f l) as [bs'|e]; cbn [bind]; [|discriminate].
    intros [= <-]. cbn [List.length]. now rewrite (IH bs' eq_refl).
Qed.

Lemma map_result_Forall {A B : Type} (f : A -> result B) (P : B -> Prop) (l : list A) :
  (forall a b, f a = Ok b -> P b) ->
  forall bs, map_result f l = Ok bs -> Forall P bs.
Proof.
  intros Hf. induction l as [|a l IH]; cbn [map_result]; intros bs.
  - intros [= <-]. constructor.
  - destruct (f a) as [b|e] eqn:Hb; cbn [bind]; [|discriminate].
    destruct (map_result f l) as [bs'|e]; cbn [bind]; [|discriminate].
    intros [= <-]. constructor; [now apply (Hf a)|now apply IH].
Qed.

Lemma activity_line_item_currency (item : value) (line : LineItem) :
  activity_line_item item = Ok line -> currency (price_data line) = "gbp".
Proof.
  unfold activity_line_item. intros H.
  split_bind H; try discriminate H. now injection H as <-.
Qed.

Lemma package_line_item_currency (amount : value) (line : LineItem) :
  package_line_item amount = Ok line -> currency (price_data line) = "gbp".
Proof.
  unfold package_line_item. intros H.
  split_bind H; try discriminate H. now injection H as <-.
Qed.

(** The line items of lines 60-93: all in pounds, one per element of
    [items] in the activity branch and a single one otherwise. *)
Lemma lineItems_shape (type items amount : value) (lines : list LineItem) :
  lineItems type items amount = Ok lines ->
  Forall (fun line => currency (price_data line) = "gbp") lines
  /\ List.length lines
     = (if strict_equals_string type "activity_upgrade" && non_empty_array items
        then List.length (elements items) else 1%nat).
Proof.
  unfold lineItems. rewrite activity_branch.
  destruct (strict_equals_string type "activity_upgrade" && non_empty_array items).
  - intros H. split.
    + now apply (map_result_Forall activity_line_item _ (elements items)
                   activity_line_item_currency).
    + now apply map_result_length with (f := activity_line_item).
  - destruct (package_line_item amount) as [line|e] eqn:Hline; cbn [bind];
      [|discriminate].
    intros [= <-]. split; [|reflexivity].
    constructor; [|constructor]. now apply (package_line_item_currency amount).
Qed.

(** X5. Every session the server asks for is a one-time card payment in
    pounds for a request that passed validation: the payment method is
    [card] alone, the mode is [payment], every line item is priced in
    [gbp], there is one line item per element of [items] in the activity
    branch and exactly one otherwise, and the client reference is the
    [userId] of the request. *)
Theorem created_session_is_one_card_payment_in_pounds
  (stripe : Stripe) (now : number) (req : Request) (fields : list (string * value))
  (params : SessionParams)
  (Hbody : body req = JObj fields)
  (Hcall : In (sessions_create params) (calls (create_checkout_session stripe now req))) :
  payment_method_types params = ["card"]
  /\ mode params = "payment"
  /\ Forall (fun line => currency (price_data line) = "gbp") (line_items params)
  /\ List.length (line_items params)
     = (if strict_equals_string (lookup "type" fields) "activity_upgrade"
           && non_empty_array (lookup "items" fields)
        then List.length (elements (lookup "items" fields)) else 1%nat)
  /\ client_reference_id params = lookup "userId" fields
  /\ truthy (lookup "userId" fields) = true
  /\ (truthy (lookup "amount" fields) || truthy (lookup "items" fields)) = true.
Proof.
  apply create_checkout_session_called in Hcall as [timestamp Hbefore].
  destruct (before_create_creating now req fields params timestamp Hbody Hbefore)
    as (_ & Huser & Hpay & _).
  destruct (before_create_params now req fields params timestamp Hbody Hbefore)
    as (lines & u & t & count & Hlines & _ & _ & _ & _ & ->).
  cbn [payment_method_types mode line_items client_reference_id].
  destruct (lineItems_shape _ _ _ _ Hlines) as [Hgbp Hlength].
  repeat split; assumption.
Qed.

Lemma created_session_is_one_card_payment_in_pounds_witness :
  exists params,
    In (sessions_create params)
       (calls (create_checkout_session (rejecting "card_declined") noon
                 (post "/create-checkout-session" None
                    (JObj [("userId", JStr "u1");
                           ("type", JStr "activity_upgrade");
                           ("items", JArr [item_json safari; item_json safari])]))))
    /\ payment_method_types params = ["card"]
    /\ mode params = "payment"
    /\ List.length (line_items params) = 2%nat.
Proof.
  eexists. split; [left; reflexivity|].
  pose proof (created_session_is_one_card_payment_in_pounds
                (rejecting "card_declined") noon
                (post "/create-checkout-session" None
                   (JObj [("userId", JStr "u1");
                          ("type", JStr "activity_upgrade");
                          ("items", JArr [item_json safari; item_json safari])]))
                [("userId", JStr "u1");
                 ("type", JStr "activity_upgrade");
                 ("items", JArr [item_json safari; item_json safari])]
                _ eq_refl (or_introl eq_refl)) as (Hcard & Hmode & _ & Hlength & _).
  exact (conj Hcard (conj Hmode Hlength)).
Defined.

(** X6. The metadata of the session: the [userId] as received, the
    timestamp of the request as a string, the [packageId] or the empty
    string, the [type] or ["package"], and an [itemCount] that is the
    length of [items] when [items] is an array (whichever branch built
    the line items) and 1 when [items] is falsy. *)
Theorem created_session_metadata
  (stripe : Stripe) (now : number) (req : Request) (fields : list (string * value))
  (params : SessionParams)
  (Hbody : body req = JObj fields)
  (Hcall : In (sessions_create params) (calls (create_checkout_session stripe now req))) :
  exists count,
    metadata params
    = JObj [("userId", lookup "userId" fields);
            ("timestamp", JStr (NumberToString now));
            ("packageId", logical_or (lookup "packageId" fields) (JStr ""));
            ("type", logical_or (lookup "type" fields) (JStr "package"));
            ("itemCount", count)]
    /\ (forall items, lookup "items" fields = JArr items ->
        count = JNum (of_Z (Z.of_nat (List.length items))))
    /\ (truthy (lookup "items" fields) = false -> count = JNum (of_Z 1))
    /\ (lookup "packageId" fields = JUndefined ->
        lookup "packageId" (match metadata params with JObj m => m | _ => [] end) = JStr "")
    /\ (lookup "type" fields = JUndefined ->
        lookup "type" (match metadata params with JObj m => m | _ => [] end)
        = JStr "package").
Proof.
  apply create_checkout_session_called in Hcall as [timestamp Hbefore].
  destruct (before_create_params now req fields params timestamp Hbody Hbefore)
    as (lines & u & t & count & _ & _ & _ & Hcount & _ & ->).
  exists count. cbn [metadata]. split; [reflexivity|]. split; [|split; [|split]].
  - intros items Hitems. rewrite Hitems in Hcount. cbn in Hcount. now injection Hcount.
  - intros Hfalsy. rewrite Hfalsy in Hcount. now injection Hcount.
  - intros Habsent. cbn. now rewrite Habsent.
  - intros Habsent. cbn. now rewrite Habsent.
Qed.

Lemma created_session_metadata_witness :
  exists params,
    In (sessions_create params)
       (calls (create_checkout_session (rejecting "card_declined") noon
                 (post "/create-checkout-session" None
                    (JObj [("userId", JStr "u1");
                           ("amount", JNum (of_Z 25));
                           ("items", JArr [item_json safari; item_json safari])]))))
    /\ metadata params
       = JObj [("userId", JStr "u1");
               ("timestamp", JStr "1730462400000");
               ("packageId", JStr "");
               ("type", JStr "package");
               ("itemCount", JNum (of_Z 2))]
    /\ List.length (line_items params) = 1%nat.
Proof.
  eexists. split; [left; reflexivity|]. split; [|reflexivity].
  destruct (created_session_metadata
              (rejecting "card_declined") noon
              (post "/create-checkout-session" None
                 (JObj [("userId", JStr "u1");
                        ("amount", JNum (of_Z 25));
                        ("items", JArr [item_json safari; item_json safari])]))
              [("userId", JStr "u1");
               ("amount", JNum (of_Z 25));
               ("items", JArr [item_json safari; item_json safari])]
              _ eq_refl (or_introl eq_refl)) as (count & Hmeta & Hcount & _).
  rewrite Hmeta, (Hcount _ eq_refl). reflexivity.
Defined.

(** X7. The redirect URLs are built by plain concatenation. For a
    [userId] that is a string, the success URL is the production success
    page with the literal placeholder [{CHECKOUT_SESSION_ID}], then the
    [userId] exactly as received (it is not percent-encoded), the
    timestamp of the request and the type; the cancel URL carries the
    [userId] and the timestamp and no type. *)
Theorem redirect_urls_embed_userId_verbatim
  (stripe : Stripe) (now : number) (req : Request) (fields : list (string * value))
  (params : SessionParams) (u : string)
  (Hbody : body req = JObj fields)
  (Huser : lookup "userId" fields = JStr u)
  (Hcall : In (sessions_create params) (calls (create_checkout_session stripe now req))) :
  exists t,
    ToString (logical_or (lookup "type" fields) (JStr "package")) = Ok t
    /\ success_url params
       = "https://kenyaonabudgetsafaris.co.uk/payment-successa.html?session_id={CHECKOUT_SESSION_ID}&userId="
         ++ u ++ "&timestamp=" ++ NumberToString now ++ "&type=" ++ t
    /\ cancel_url params
       = "https://kenyaonabudgetsafaris.co.uk/payment-cancelled.html?userId="
         ++ u ++ "&timestamp=" ++ NumberToString now.
Proof.
  apply create_checkout_session_called in Hcall as [timestamp Hbefore].
  destruct (before_create_params now req fields params timestamp Hbody Hbefore)
    as (lines & u' & t & count & _ & Hu & Ht & _ & _ & ->).
  rewrite Huser in Hu. injection Hu as <-.
  exists t. cbn [success_url cancel_url]. now rewrite !append_empty.
Qed.

Lemma redirect_urls_embed_userId_verbatim_witness :
  exists params,
    In (sessions_create params)
       (calls (create_checkout_session (rejecting "card_declined") noon
                 (post "/create-checkout-session" None
                    (JObj [("userId", JStr "u1&admin=true");
                           ("amount", JNum (of_Z 25));
                           ("type", JStr "activity_upgrade")]))))
    /\ success_url params
       = "https://kenyaonabudgetsafaris.co.uk/payment-successa.html?session_id={CHECKOUT_SESSION_ID}&userId=u1&admin=true&timestamp=1730462400000&type=activity_upgrade"
    /\ cancel_url params
       = "https://kenyaonabudgetsafaris.co.uk/payment-cancelled.html?userId=u1&admin=true&timestamp=1730462400000".
Proof.
  eexists. split; [left; reflexivity|].
  destruct (redirect_urls_embed_userId_verbatim
              (rejecting "card_declined") noon
              (post "/create-checkout-session" None
                 (JObj [("userId", JStr "u1&admin=true");
                        ("amount", JNum (of_Z 25));
                        ("type", JStr "activity_upgrade")]))
              [("userId", JStr "u1&admin=true");
               ("amount", JNum (of_Z 25));
               ("type", JStr "activity_upgrade")]
              _ "u1&admin=true" eq_refl eq_refl (or_introl eq_refl))
    as (t & Ht & Hsuccess & Hcancel).
  injection Ht as <-. exact (conj Hsuccess Hcancel).
Defined.

(** X8. When the processor has created the session, the answer is 200
    with the [id] of the session, the timestamp of the request as a
    number (the one the URLs and the metadata carry as text) and
    [success: true]. When the promise resolves to [null] or [undefined]
    instead, the answer is 500 although the call was made. *)
Theorem checkout_success_answer
  (stripe : Stripe) (now : number) (req : Request) (params : SessionParams)
  (Hcall : calls (create_checkout_session stripe now req) = [sessions_create params]) :
  (forall session,
      checkout_sessions_create stripe params = Ok (JObj session) ->
      sent (create_checkout_session stripe now req)
      = {| status := 200;
           json := JObj [("id", lookup "id" session);
                         ("timestamp", JNum now);
                         ("success", JBool true)] |})
  /\ (checkout_sessions_create stripe params = Ok JNull
      \/ checkout_sessions_create stripe params = Ok JUndefined ->
      status (sent (create_checkout_session stripe now req)) = 500
      /\ error_envelope (sent (create_checkout_session stripe now req))).
Proof.
  assert (Hbefore : exists ts, before_create now req = Ok (Creating params ts)).
  { apply (create_checkout_session_called stripe). rewrite Hcall. now left. }
  destruct Hbefore as [ts Hbefore].
  assert (Hts : ts = now).
  { destruct (before_create_creating_object _ _ _ _ Hbefore) as [fields Hbody].
    now destruct (before_create_creating now req fields params ts Hbody Hbefore). }
  subst ts. unfold create_checkout_session. rewrite Hbefore. split.
  - intros session ->. reflexivity.
  - intros [-> | ->]; cbn [bind after_create Get sent];
      split; try reflexivity; apply internal_error_envelope.
Qed.

Lemma checkout_success_answer_witness :
  sent (create_checkout_session (resolving (JObj [("id", JStr "cs_test_1")])) noon
          (post "/create-checkout-session" None
             (JObj [("userId", JStr "u1"); ("amount", JNum (of_Z 25))])))
  = {| status := 200;
       json := JObj [("id", JStr "cs_test_1");
                     ("timestamp", JNum (of_Z 1730462400000));
                     ("success", JBool true)] |}.
Proof.
  exact (proj1 (checkout_success_answer (resolving (JObj [("id", JStr "cs_test_1")])) noon
                  (post "/create-checkout-session" None
                     (JObj [("userId", JStr "u1"); ("amount", JNum (of_Z 25))]))
                  _ eq_refl)
           [("id", JStr "cs_test_1")] eq_refl).
Defined.

(** *** Items of an activity upgrade *)

Lemma map_result_throws {A B : Type} (f : A -> result B) (l : list A) (a : A) :
  In a l -> (exists e, f a = Throw e) -> exists e, map_result f l = Throw e.
Proof.
  intros Hin [e Ha]. induction l as [|a' l IH]; [contradiction|].
  cbn [map_result]. destruct (f a') as [b|e'] eqn:Hhead; cbn [bind].
  - destruct Hin as [->|Hin]; [congruence|].
    destruct (IH Hin) as [e'' ->]. now exists e''.
  - now exists e'.
Qed.

(** X9. One [null] among the [items] of an activity upgrade fails the
    whole request: reading its [title] throws, the handler answers 500
    with the error envelope, and the processor is not called, whatever
    the other items are. *)
Theorem null_item_is_500
  (stripe : Stripe) (now : number) (req : Request) (fields : list (string * value))
  (items : list value)
  (Hbody : body req = JObj fields)
  (Huser : truthy (lookup "userId" fields) = true)
  (Htype : lookup "type" fields = JStr "activity_upgrade")
  (Hitems : lookup "items" fields = JArr items)
  (Hnull : In JNull items) :
  status (sent (create_checkout_session stripe now req)) = 500
  /\ error_envelope (sent (create_checkout_session stripe now req))
  /\ calls (create_checkout_session stripe now req) = [].
Proof.
  assert (Hthrow : exists e, before_create now req = Throw e).
  { unfold before_create. rewrite Hbody, !destructure_object. cbn [bind].
    rewrite Huser, Hitems. cbn [negb truthy andb].
    rewrite andb_false_r.
    unfold lineItems. rewrite activity_branch, Htype.
    destruct items as [|item rest]; [contradiction|].
    cbn [strict_equals_string non_empty_array elements andb].
    rewrite String.eqb_refl.
    destruct (map_result_throws activity_line_item (item :: rest) JNull Hnull)
      as [e ->]; [eexists; reflexivity|].
    now exists e. }
  destruct Hthrow as [e Hthrow].
  unfold create_checkout_session. rewrite Hthrow. cbn [sent calls].
  repeat split; apply internal_error_envelope.
Qed.

Lemma null_item_is_500_witness :
  sent (create_checkout_session (resolving (JObj [("id", JStr "cs_test_1")])) noon
          (post "/create-checkout-session" None
             (JObj [("userId", JStr "u1");
                    ("type", JStr "activity_upgrade");
                    ("items", JArr [item_json safari; JNull])])))
  = {| status := 500;
       json := JObj [("error", JStr "Cannot read properties of null (reading 'title')");
                     ("success", JBool false)] |}
  /\ calls (create_checkout_session (resolving (JObj [("id", JStr "cs_test_1")])) noon
              (post "/create-checkout-session" None
                 (JObj [("userId", JStr "u1");
                        ("type", JStr "activity_upgrade");
                        ("items", JArr [item_json safari; JNull])])))
     = [].
Proof.
  split; [reflexivity|].
  exact (proj2 (proj2 (null_item_is_500
                         (resolving (JObj [("id", JStr "cs_test_1")])) noon
                         (post "/create-checkout-session" None
                            (JObj [("userId", JStr "u1");
                                   ("type", JStr "activity_upgrade");
                                   ("items", JArr [item_json safari; JNull])]))
                         [("userId", JStr "u1");
                          ("type", JStr "activity_upgrade");
                          ("items", JArr [item_json safari; JNull])]
                         [item_json safari; JNull]
                         eq_refl eq_refl eq_refl eq_refl (or_intror (or_introl eq_refl))))).
Defined.

(** The callback of [items.map] on any item with a string title and
    number quantity and price: a falsy field gets the default. *)
Lemma activity_line_item_effective (i : Item) :
  activity_line_item (item_json i) = Ok (expected_line_item (effective i)).
Proof.
  destruct i as [t q p]. unfold item_json, expected_line_item, effective.
  cbn [title item_quantity price].
  assert (Hname : logical_or (lookup "title" (optional "title" JStr t
                                              ++ optional "quantity" JNum q
                                              ++ optional "price" JNum p))
                    (JStr "Activity")
                  = JStr (default "Activity"
                            match t with
                            | Some t' => if String.eqb t' "" then None else Some t'
                            | None => None
                            end)).
  { destruct t as [t|], q, p; cbn; unfold logical_or; cbn;
      try destruct (String.eqb t ""); reflexivity. }
  assert (Hquantity : logical_or (lookup "quantity" (optional "title" JStr t
                                                     ++ optional "quantity" JNum q
                                                     ++ optional "price" JNum p))
                        (JNum (of_Z 1))
                      = JNum (default (of_Z 1)
                                match q with
                                | Some q' => if Number.truthy q' then Some q' else None
                                | None => None
                                end)).
  { destruct t, q as [q|], p; cbn; unfold logical_or; cbn;
      try destruct (Number.truthy q); reflexivity. }
  assert (Hprice : logical_or (lookup "price" (optional "title" JStr t
                                               ++ optional "quantity" JNum q
                                               ++ optional "price" JNum p))
                     (JNum (of_Z 0))
                   = JNum (default (of_Z 0)
                             match p with
                             | Some p' => if Number.truthy p' then Some p' else None
                             | None => None
                             end)).
  { destruct t, q, p as [p|]; cbn; unfold logical_or; cbn;
      try destruct (Number.truthy p); reflexivity. }
  unfold activity_line_item. cbn [Get bind].
  rewrite Hname, Hquantity, Hprice.
  cbn [template ToString ToNumber bind]. now rewrite append_empty.
Qed.

Lemma map_activity_line_item_effective (items : list Item) :
  map_result activity_line_item (map item_json items)
  = Ok (map (fun i => expected_line_item (effective i)) items).
Proof.
  induction items as [|i items IH]; cbn [map map_result]; [reflexivity|].
  now rewrite (activity_line_item_effective i), IH.
Qed.

(** X10. In an activity upgrade the defaults replace every falsy field,
    not only an absent one: an item with an empty title is named
    "Activity", an item whose quantity is 0 is sold (and described) with
    quantity 1, and a price of 0 or [-0] is charged 0. The line items are
    those of the items with their falsy fields removed. *)
Theorem falsy_item_fields_take_defaults
  (stripe : Stripe) (now : number) (req : Request) (fields : list (string * value))
  (u : string) (item : Item) (rest : list Item)
  (Hbody : body req = JObj fields)
  (Huser : lookup "userId" fields = JStr u)
  (Hu : u <> "")
  (Htype : lookup "type" fields = JStr "activity_upgrade")
  (Hitems : lookup "items" fields = JArr (map item_json (item :: rest))) :
  (exists params,
      calls (create_checkout_session stripe now req) = [sessions_create params]
      /\ line_items params
         = map (fun i => expected_line_item (effective i)) (item :: rest))
  /\ (forall t p,
         expected_line_item (effective {| title := t;
                                          item_quantity := Some (of_Z 0);
                                          price := p |})
         = expected_line_item (effective {| title := t;
                                            item_quantity := Some (of_Z 1);
                                            price := p |}))
  /\ (forall q p,
         name (product_data (price_data
           (expected_line_item (effective {| title := Some "";
                                             item_quantity := q;
                                             price := p |}))))
         = JStr "Activity").
Proof.
  split; [|split; reflexivity].
  destruct (before_create_creates now req fields
              (map (fun i => expected_line_item (effective i)) (item :: rest))
              u "activity_upgrade")
    as [params [Hbefore Hlines]]; trivial.
  - rewrite Huser. now apply truthy_text.
  - now rewrite Hitems, orb_true_r.
  - unfold lineItems. rewrite activity_branch, Htype, Hitems.
    cbn [strict_equals_string non_empty_array map andb elements].
    rewrite String.eqb_refl.
    exact (map_activity_line_item_effective (item :: rest)).
  - now rewrite Huser.
  - now rewrite Htype.
  - exists params. split; [|exact Hlines].
    now apply create_checkout_session_calls with (timestamp := now).
Qed.

Lemma falsy_item_fields_take_defaults_witness :
  exists params,
    calls (create_checkout_session (resolving (JObj [("id", JStr "cs_test_1")])) noon
             (post "/create-checkout-session" None
                (JObj [("userId", JStr "u1");
                       ("type", JStr "activity_upgrade");
                       ("items", JArr [JObj [("title", JStr "");
                                             ("quantity", JNum (of_Z 0));
                                             ("price", JNum (of_decimal 4999 (-2)))]])])))
    = [sessions_create params]
    /\ line_items params
       = [{| price_data :=
               {| currency := "gbp";
                  product_data := {| name := JStr "Activity";
                                     description := Some "Quantity: 1" |};
                  unit_amount := of_Z 4999 |};
             quantity := JNum (of_Z 1) |}].
Proof.
  refine (proj1 (falsy_item_fields_take_defaults
                   (resolving (JObj [("id", JStr "cs_test_1")])) noon
                   (post "/create-checkout-session" None
                      (JObj [("userId", JStr "u1");
                             ("type", JStr "activity_upgrade");
                             ("items", JArr [JObj [("title", JStr "");
                                                   ("quantity", JNum (of_Z 0));
                                                   ("price", JNum (of_decimal 4999 (-2)))]])]))
                   [("userId", JStr "u1");
                    ("type", JStr "activity_upgrade");
                    ("items", JArr [item_json {| title := Some "";
                                                 item_quantity := Some (of_Z 0);
                                                 price := Some (of_decimal 4999 (-2)) |}])]
                   "u1"
                   {| title := Some "";
                      item_quantity := Some (of_Z 0);
                      price := Some (of_decimal 4999 (-2)) |}
                   [] eq_refl eq_refl _ eq_refl eq_refl)).
  discriminate.
Defined.

(** *** Status and the success flag *)

Lemma after_create_success (session : value) (timestamp : number) (res : Response) :
  after_create session timestamp = Ok res -> field "success" res = JBool true.
Proof.
  unfold after_create. intros H.
  split_bind H; try discriminate H. now injection H as <-.
Qed.

Lemma after_retrieve_success (session : value) (res : Response) :
  after_retrieve session = Ok res -> field "success" res = JBool true.
Proof.
  unfold after_retrieve. intros H.
  split_bind H; try discriminate H; now injection H as <-.
Qed.

Lemma post_200_has_success
  (stripe : Stripe) (clock : Clock) (route : Route) (req : Request) :
  route = POST_create_checkout_session \/ route = POST_verify_payment
  \/ route = POST_handle_cancellation ->
  status (sent (app stripe clock route req)) = 200 ->
  field "success" (sent (app stripe clock route req)) = JBool true.
Proof.
  intros [-> | [-> | ->]]; cbn [app].
  - unfold create_checkout_session.
    destruct (before_create (Date_now clock) req) as [[res|params ts]|e] eqn:Hbefore;
      cbn [sent]; try discriminate.
    + destruct (before_create_answered _ _ _ Hbefore) as [-> _]. discriminate.
    + destruct (checkout_sessions_create stripe params) as [session|e]; cbn [bind];
        [|discriminate].
      destruct (after_create session ts) as [res|e] eqn:Hafter; cbn [sent];
        [|discriminate].
      intros _. now apply (after_create_success session ts).
  - unfold verify_payment.
    destruct (before_retrieve req) as [[res|sessionId]|e] eqn:Hbefore;
      cbn [sent]; try discriminate.
    + destruct (before_retrieve_refused _ _ Hbefore) as [-> _]. discriminate.
    + destruct (checkout_sessions_retrieve stripe sessionId) as [session|e]; cbn [bind];
        [|discriminate].
      destruct (after_retrieve session) as [res|e] eqn:Hafter; cbn [sent];
        [|discriminate].
      intros _. now apply (after_retrieve_success session).
  - unfold handle_cancellation.
    destruct (destructure (body req) "userId") as [userId|e]; cbn [bind sent];
      [|discriminate].
    destruct (destructure (body req) "timestamp") as [timestamp|e]; cbn [bind sent];
      [|discriminate].
    now destruct (truthy userId).
Qed.

(** X12. The three POST handlers answer 200, 400 or 500, and the
    [success] property of the body is [true] exactly when the status is
    200. *)
Theorem success_flag_iff_200
  (stripe : Stripe) (clock : Clock) (route : Route) (req : Request)
  (Hpost : route = POST_create_checkout_session \/ route = POST_verify_payment
           \/ route = POST_handle_cancellation) :
  (status (sent (app stripe clock route req)) = 200
   \/ status (sent (app stripe clock route req)) = 400
   \/ status (sent (app stripe clock route req)) = 500)
  /\ (status (sent (app stripe clock route req)) = 200
      <-> field "success" (sent (app stripe clock route req)) = JBool true).
Proof.
  assert (Hfailure : status (sent (app stripe clock route req)) <> 200 ->
                     (status (sent (app stripe clock route req)) = 400
                      \/ status (sent (app stripe clock route req)) = 500)
                     /\ field "success" (sent (app stripe clock route req)) <> JBool true).
  { intros Hnot.
    destruct Hpost as [-> | [-> | ->]]; cbn [app] in *.
    - unfold create_checkout_session in *.
      destruct (before_create (Date_now clock) req) as [[res|params ts]|e] eqn:Hbefore;
        cbn [sent] in *.
      + destruct (before_create_answered _ _ _ Hbefore) as (-> & _ & ->).
        split; [now left|discriminate].
      + destruct (checkout_sessions_create stripe params) as [session|e];
          cbn [bind] in *; [|split; [now right|discriminate]].
        destruct (after_create session ts) as [res|e] eqn:Hafter; cbn [sent] in *;
          [|split; [now right|discriminate]].
        now rewrite (after_create_status _ _ _ Hafter) in Hnot.
      + split; [now right|discriminate].
    - unfold verify_payment in *.
      destruct (before_retrieve req) as [[res|sessionId]|e] eqn:Hbefore;
        cbn [sent] in *.
      + destruct (before_retrieve_refused _ _ Hbefore) as (-> & _ & ->).
        split; [now left|discriminate].
      + destruct (checkout_sessions_retrieve stripe sessionId) as [session|e];
          cbn [bind] in *; [|split; [now right|discriminate]].
        destruct (after_retrieve session) as [res|e] eqn:Hafter; cbn [sent] in *;
          [|split; [now right|discriminate]].
        now rewrite (after_retrieve_status _ _ Hafter) in Hnot.
      + split; [now right|discriminate].
    - unfold handle_cancellation in *.
      destruct (destructure (body req) "userId") as [userId|e]; cbn [bind sent] in *;
        [|split; [now right|discriminate]].
      destruct (destructure (body req) "timestamp") as [timestamp|e];
        cbn [bind sent] in *; [|split; [now right|discriminate]].
      destruct (truthy userId); cbn [negb sent status] in *.
      + now contradiction Hnot.
      + split; [now left|discriminate]. }
  destruct (Z.eq_dec (status (sent (app stripe clock route req))) 200) as [H200|Hnot].
  - split; [now left|]. split; [|trivial].
    intros _. now apply post_200_has_success.
  - destruct (Hfailure Hnot) as [Hstatus Hflag].
    split; [now right|]. split; [contradiction|]. intros Htrue. contradiction.
Qed.

Lemma success_flag_iff_200_witness :
  field "success" (sent (app (resolving JNull) {| Date_now := noon; toISOString := "" |}
                           POST_handle_cancellation
                           (post "/handle-cancellation" None (JObj [("userId", JStr "u1")]))))
  = JBool true.
Proof.
  exact (proj1 (proj2 (success_flag_iff_200
                         (resolving JNull) {| Date_now := noon; toISOString := "" |}
                         POST_handle_cancellation
                         (post "/handle-cancellation" None (JObj [("userId", JStr "u1")]))
                         (or_intror (or_intror eq_refl))))
           eq_refl).
Defined.

(** *** Verification *)

(** X13. With a truthy [sessionId] the verification handler asks the
    processor for exactly that value, once, whatever comes back, and
    answers 200 or 500; a promise that resolves to [null] or [undefined]
    is answered 500 with the error envelope. *)
Theorem verify_payment_retrieves_the_sessionId
  (stripe : Stripe) (req : Request) (fields : list (string * value))
  (Hbody : body req = JObj fields)
  (Hid : truthy (lookup "sessionId" fields) = true) :
  calls (verify_payment stripe req) = [sessions_retrieve (lookup "sessionId" fields)]
  /\ (status (sent (verify_payment stripe req)) = 200
      \/ status (sent (verify_payment stripe req)) = 500)
  /\ (checkout_sessions_retrieve stripe (lookup "sessionId" fields) = Ok JNull
      \/ checkout_sessions_retrieve stripe (lookup "sessionId" fields) = Ok JUndefined ->
      status (sent (verify_payment stripe req)) = 500
      /\ error_envelope (sent (verify_payment stripe req))).
Proof.
  unfold verify_payment, before_retrieve.
  rewrite Hbody, destructure_object. cbn [bind]. rewrite Hid. cbn [negb].
  destruct (checkout_sessions_retrieve stripe (lookup "sessionId" fields))
    as [session|e]; cbn [bind].
  - destruct (after_retrieve session) as [res|e] eqn:Hafter; cbn [sent calls].
    + split; [reflexivity|]. split; [left; now apply (after_retrieve_status session)|].
      intros [[= ->]|[= ->]]; discriminate Hafter.
    + split; [reflexivity|]. split; [now right|].
      intros _. apply internal_error_envelope.
  - cbn [sent calls]. split; [reflexivity|]. split; [now right|].
    intros _. apply internal_error_envelope.
Qed.

Lemma verify_payment_retrieves_the_sessionId_witness :
  calls (verify_payment (resolving JNull)
           (post "/verify-payment" None (JObj [("sessionId", JStr "cs_1")])))
  = [sessions_retrieve (JStr "cs_1")]
  /\ status (sent (verify_payment (resolving JNull)
                     (post "/verify-payment" None (JObj [("sessionId", JStr "cs_1")]))))
     = 500.
Proof.
  pose proof (verify_payment_retrieves_the_sessionId (resolving JNull)
                (post "/verify-payment" None (JObj [("sessionId", JStr "cs_1")]))
                [("sessionId", JStr "cs_1")] eq_refl eq_refl) as (Hcalls & _ & Hnull).
  exact (conj Hcalls (proj1 (Hnull (or_introl eq_refl)))).
Defined.

(** *** Unit amounts *)

Lemma shr_exponent (mrs : shr_record) (e n : Z) : e <= snd (shr mrs e n).
Proof. destruct n; cbn [shr snd]; lia. Qed.

(** Rounding never lowers the exponent it is given. *)
Lemma binary_round_aux_exponent (s s' : bool) (mx ex : Z) (lx : location)
  (m : positive) (e : Z) :
  binary_round_aux prec emax s mx ex lx = S754_finite s' m e -> ex <= e.
Proof.
  unfold binary_round_aux, shr_fexp.
  pose proof (shr_exponent (shr_record_of_loc mx lx) ex
                (fexp prec emax (Zdigits2 mx + ex) - ex)) as H1.
  destruct (shr (shr_record_of_loc mx lx) ex _) as [mrs' e'].
  pose proof (shr_exponent
                (shr_record_of_loc
                   (round_nearest_even (shr_m mrs') (loc_of_shr_record mrs')) loc_Exact) e'
                (fexp prec emax
                   (Zdigits2 (round_nearest_even (shr_m mrs') (loc_of_shr_record mrs')) + e')
                 - e')) as H2.
  destruct (shr _ e' _) as [mrs'' e''].
  cbn [snd] in *.
  destruct (shr_m mrs''); try discriminate.
  destruct (e'' <=? emax - prec); [|discriminate].
  intros [= _ _ <-]. lia.
Qed.

(** An integer converts to an integer, or overflows to an infinity. *)
Lemma of_Z_no_fraction (r : Z) : no_fraction (of_Z r) = true.
Proof.
  assert (Hround : forall s p, no_fraction (binary_round prec emax s p 0) = true).
  { intros s p. unfold binary_round, shl_align.
    destruct (fexp prec emax (Zpos (digits2_pos p) + 0) - 0) as [|k|k] eqn:Hshift.
    1, 2: destruct (binary_round_aux prec emax s (Zpos p) 0 loc_Exact)
            as [| | |s' m e] eqn:Haux; try reflexivity;
          apply binary_round_aux_exponent in Haux; cbn [no_fraction isInteger];
          now destruct (Z.leb_spec 0 e); [|lia].
    assert (Hk : Zpos (digits2_pos p) + Zpos k = 53).
    { unfold fexp, emin, prec, emax in Hshift. lia. }
    assert (Hfexp : fexp prec emax (Zpos (digits2_pos p) + 0) = Zneg k) by lia.
    rewrite Hfexp.
    unfold binary_round_aux, shr_fexp.
    cbn [Zdigits2]. rewrite iter_xO_digits.
    replace (fexp prec emax (Zpos (digits2_pos p + k) + Zneg k) - Zneg k) with 0
      by (unfold fexp, emin, prec, emax; lia).
    cbn [shr shr_record_of_loc loc_of_shr_record shr_m round_nearest_even Zdigits2].
    rewrite iter_xO_digits.
    replace (fexp prec emax (Zpos (digits2_pos p + k) + Zneg k) - Zneg k) with 0
      by (unfold fexp, emin, prec, emax; lia).
    cbn [shr shr_m].
    replace (Zneg k <=? emax - prec) with true
      by (symmetry; apply Z.leb_le; unfold prec, emax; lia).
    cbn [no_fraction isInteger].
    replace (0 <=? Zneg k) with false by (symmetry; apply Z.leb_gt; lia).
    rewrite iter_xO_value. cbn [Z.opp].
    rewrite Z.land_ones by lia. rewrite Z.mod_mul by lia. reflexivity. }
  unfold of_Z, binary_normalize. destruct r; [reflexivity|apply Hround|apply Hround].
Qed.

(** [Math.round] leaves no fractional part. *)
Lemma Math_round_no_fraction (x : number) : no_fraction (Math_round x) = true.
Proof.
  destruct x as [s|s| |s m e]; try reflexivity.
  unfold Math_round.
  destruct (Z.leb_spec 0 e) as [He|He].
  - cbn [no_fraction isInteger]. now destruct (Z.leb_spec 0 e); [|lia].
  - cbv zeta. destruct (_ =? 0); [reflexivity|apply of_Z_no_fraction].
Qed.

Lemma activity_line_item_no_fraction (item : value) (line : LineItem) :
  activity_line_item item = Ok line ->
  no_fraction (unit_amount (price_data line)) = true.
Proof.
  unfold activity_line_item. intros H.
  split_bind H; try discriminate H. injection H as <-.
  apply Math_round_no_fraction.
Qed.

(** X14. No unit amount handed to the processor has a fractional part:
    each one is the result of [Math.round], hence an integer, [NaN] or an
    infinity. *)
Theorem unit_amounts_have_no_fraction
  (stripe : Stripe) (now : number) (req : Request) (params : SessionParams)
  (Hcall : In (sessions_create params) (calls (create_checkout_session stripe now req))) :
  Forall (fun line => no_fraction (unit_amount (price_data line)) = true)
         (line_items params).
Proof.
  apply create_checkout_session_called in Hcall as [timestamp Hbefore].
  destruct (before_create_creating_object _ _ _ _ Hbefore) as [fields Hbody].
  destruct (before_create_creating now req fields params timestamp Hbody Hbefore)
    as (_ & _ & _ & Hlines & _).
  revert Hlines. unfold lineItems.
  destruct (_ && _).
  - apply map_result_Forall. exact activity_line_item_no_fraction.
  - unfold package_line_item.
    destruct (ToNumber (lookup "amount" fields)) as [pounds|e]; cbn [bind];
      [|discriminate].
    intros [= <-]. constructor; [|constructor].
    apply Math_round_no_fraction.
Qed.

Lemma unit_amounts_have_no_fraction_witness :
  exists params,
    In (sessions_create params)
       (calls (create_checkout_session (rejecting "card_declined") noon
                 (post "/create-checkout-session" None
                    (JObj [("userId", JStr "u1");
                           ("amount", JNum (of_decimal 1005 (-3)))]))))
    /\ map (fun line => unit_amount (price_data line)) (line_items params) = [of_Z 100]
    /\ Forall (fun line => no_fraction (unit_amount (price_data line)) = true)
              (line_items params).
Proof.
  eexists. split; [left; reflexivity|]. split; [vm_compute; reflexivity|].
  apply (unit_amounts_have_no_fraction (rejecting "card_declined") noon
           (post "/create-checkout-session" None
              (JObj [("userId", JStr "u1");
                     ("amount", JNum (of_decimal 1005 (-3)))]))).
  left. reflexivity.
Defined.

(** *** Amounts that are not numbers *)

(** X15. An empty [items] array without [amount] is not refused, whatever
    the [type] is, [activity_upgrade] included: the handler calls the
    processor with the single package line item priced [NaN] and an
    [itemCount] of 0. *)
Theorem empty_items_reach_the_processor
  (stripe : Stripe) (now : number) (req : Request) (fields : list (string * value))
  (u : string)
  (Hbody : body req = JObj fields)
  (Huser : lookup "userId" fields = JStr u)
  (Hu : u <> "")
  (Htype : text_or_absent (lookup "type" fields) = true)
  (Hamount : lookup "amount" fields = JUndefined)
  (Hitems : lookup "items" fields = JArr []) :
  status (sent (create_checkout_session stripe now req)) <> 400
  /\ exists params,
       calls (create_checkout_session stripe now req) = [sessions_create params]
       /\ line_items params = [expected_package_item NaN]
       /\ lookup "itemCount" (match metadata params with JObj m => m | _ => [] end)
          = JNum (of_Z 0).
Proof.
  destruct (ToString_type _ Htype) as [t Ht].
  destruct (before_create_creates now req fields [expected_package_item NaN] u t)
    as [params [Hbefore Hlines]]; trivial.
  - rewrite Huser. now apply truthy_text.
  - now rewrite Hitems, orb_true_r.
  - unfold lineItems. rewrite activity_branch, Hitems, Hamount.
    cbn [non_empty_array]. now rewrite andb_false_r.
  - now rewrite Huser.
  - destruct (create_checkout_session_calls stripe now req params now Hbefore)
      as [Hcalls Hstatus].
    split; [exact Hstatus|]. exists params. split; [exact Hcalls|].
    split; [exact Hlines|].
    destruct (before_create_params now req fields params now Hbody Hbefore)
      as (lines & u' & t' & count & _ & _ & _ & Hcount & _ & ->).
    rewrite Hitems in Hcount. cbn in Hcount. injection Hcount as <-. reflexivity.
Qed.

Lemma empty_items_reach_the_processor_witness :
  exists params,
    calls (create_checkout_session (rejecting "Invalid integer: NaN") noon
             (post "/create-checkout-session" None
                (JObj [("userId", JStr "u1");
                       ("type", JStr "activity_upgrade");
                       ("items", JArr [])])))
    = [sessions_create params]
    /\ line_items params = [expected_package_item NaN]
    /\ lookup "itemCount" (match metadata params with JObj m => m | _ => [] end)
       = JNum (of_Z 0).
Proof.
  refine (proj2 (empty_items_reach_the_processor
                   (rejecting "Invalid integer: NaN") noon
                   (post "/create-checkout-session" None
                      (JObj [("userId", JStr "u1");
                             ("type", JStr "activity_upgrade");
                             ("items", JArr [])]))
                   [("userId", JStr "u1");
                    ("type", JStr "activity_upgrade");
                    ("items", JArr [])]
                   "u1" eq_refl eq_refl _ eq_refl eq_refl eq_refl)).
  discriminate.
Defined.

(** X16. An [amount] sent as a JSON string is accepted when the string
    is not empty, and the multiplication converts it: the package line
    item is priced [Math.round(Number(amount) * 100)], which is [NaN]
    when the string is not a numeric literal. *)
Theorem string_amount_is_converted
  (stripe : Stripe) (now : number) (req : Request) (fields : list (string * value))
  (u s : string)
  (Hbody : body req = JObj fields)
  (Huser : lookup "userId" fields = JStr u)
  (Hu : u <> "")
  (Htype : lookup "type" fields = JUndefined)
  (Hamount : lookup "amount" fields = JStr s)
  (Hs : s <> "") :
  exists params,
    calls (create_checkout_session stripe now req) = [sessions_create params]
    /\ line_items params = [expected_package_item (StringToNumber s)].
Proof.
  destruct (before_create_creates now req fields
              [expected_package_item (StringToNumber s)] u "package")
    as [params [Hbefore Hlines]]; trivial.
  - rewrite Huser. now apply truthy_text.
  - rewrite Hamount, (truthy_text s Hs). reflexivity.
  - unfold lineItems. rewrite activity_branch, Htype, Hamount. reflexivity.
  - now rewrite Huser.
  - now rewrite Htype.
  - exists params. split; [|exact Hlines].
    now apply create_checkout_session_calls with (timestamp := now).
Qed.

Lemma string_amount_is_converted_witness :
  exists params,
    calls (create_checkout_session (resolving (JObj [("id", JStr "cs_test_1")])) noon
             (post "/create-checkout-session" None
                (JObj [("userId", JStr "u1"); ("amount", JStr "120.5")])))
    = [sessions_create params]
    /\ line_items params
       = [{| price_data :=
               {| currency := "gbp";
                  product_data := {| name := JStr "Travel Package Booking";
                                     description := None |};
                  unit_amount := of_Z 12050 |};
             quantity := JNum (of_Z 1) |}].
Proof.
  destruct (string_amount_is_converted
              (resolving (JObj [("id", JStr "cs_test_1")])) noon
              (post "/create-checkout-session" None
                 (JObj [("userId", JStr "u1"); ("amount", JStr "120.5")]))
              [("userId", JStr "u1"); ("amount", JStr "120.5")]
              "u1" "120.5" eq_refl eq_refl) as [params [Hcalls Hlines]];
    try discriminate; try reflexivity.
  exists params. split; [exact Hcalls|]. rewrite Hlines. vm_compute. reflexivity.
Defined.
